(** * Nursery management API (backend/server.py): a shallow embedding

    The FastAPI handlers of [backend/server.py] are modelled as pure
    functions over an explicit document store.  Python dicts (request
    bodies after [.dict()], MongoDB documents, query filters, JSON
    responses) are finite maps from keys to dynamically typed values;
    a collection is the list of its documents in insertion order; what
    a handler reads from its environment (the clock, the ObjectId that
    the driver generates, the salt of the password hash) is an explicit
    argument.  A handler returns a [result] (a value or the exception
    that Python raises) together with the store it leaves behind. *)

From Stdlib Require Import ZArith Ascii String List SpecFloat Lia.
From stdpp Require Import gmap strings list sorting.

Local Open Scope string_scope.

(** ** Values, documents, outcomes *)

(** [bson.ObjectId]: the wrapped [binary] bytes, one [ascii] per byte. *)
Inductive ObjectId := Oid (binary : list ascii).

Definition binary (o : ObjectId) : list ascii := let 'Oid b := o in b.

(** The Python values that occur in documents and responses.  A [float] is
    an IEEE 754 binary64 number ([SpecFloat] at precision 53); a [datetime]
    is a count of microseconds since the epoch. *)
Inductive value :=
| VNone
| VStr (s : string)
| VInt (z : Z)
| VFloat (f : spec_float)
| VDate (t : Z)
| VOid (o : ObjectId).

Global Instance spec_float_eq_dec : EqDecision spec_float.
Proof. solve_decision. Defined.
Global Instance ObjectId_eq_dec : EqDecision ObjectId.
Proof. solve_decision. Defined.
Global Instance value_eq_dec : EqDecision value.
Proof. solve_decision. Defined.

(** A Python dict with string keys. *)
Abbreviation pydict := (gmap string value).

(** Exceptions that the handlers raise or let escape. *)
Inductive exn :=
| HTTPException (status_code : Z) (detail : string)
| InvalidId                 (* bson.errors.InvalidId *)
| ExpiredSignatureError     (* jwt.ExpiredSignatureError *)
| DecodeError               (* any other failure of jwt.decode *)
| AttributeError            (* a module attribute that does not exist *)
| KeyError                  (* d[k] on a missing key *)
| TypeError                 (* an operand of the wrong type *)
| ValueError                (* an argument that a library refuses *)
| ZeroDivisionError
| OverflowError             (* a result too large for a float *)
| ResponseValidationError.  (* the returned value does not fit response_model *)

Inductive result (A : Type) :=
| Ok (a : A)
| Raise (e : exn).
Arguments Ok {A} a.
Arguments Raise {A} e.

(** Sequencing: an exception skips the rest of the handler. *)
Global Instance result_bind : MBind result := λ A B k r,
  match r with
  | Ok a => k a
  | Raise e => Raise e
  end.

(** What the client sees: FastAPI turns an [HTTPException] into its status
    code and every other exception into 500 Internal Server Error. *)
Definition status_of {A} (r : result A) : Z :=
  match r with
  | Ok _ => 200
  | Raise (HTTPException code _) => code
  | Raise _ => 500
  end.

(** ** bson.ObjectId: parsing and printing *)

Definition hex_digit (n : N) : ascii :=
  if (n <? 10)%N then ascii_of_N (48 + n) else ascii_of_N (87 + n).

(** [bytes.hex()]: two lower-case digits per byte. *)
Definition byte_hex (b : ascii) : list ascii :=
  [hex_digit (N_of_ascii b / 16); hex_digit (N_of_ascii b mod 16)].

(** [str(oid)] is [binascii.hexlify(oid.binary).decode()]. *)
Definition str_of_ObjectId (o : ObjectId) : string :=
  string_of_list_ascii (flat_map byte_hex (binary o)).

(** Value of a hexadecimal digit ([_PyLong_DigitValue] below 16). *)
Definition digit_value (c : ascii) : option N :=
  let n := N_of_ascii c in
  if (48 <=? n)%N && (n <=? 57)%N then Some (n - 48)%N
  else if (97 <=? n)%N && (n <=? 102)%N then Some (n - 87)%N
  else if (65 <=? n)%N && (n <=? 70)%N then Some (n - 55)%N
  else None.

Definition Py_ISSPACE (c : ascii) : bool :=
  let n := N_of_ascii c in
  ((9 <=? n)%N && (n <=? 13)%N) || (n =? 32)%N.

(** [bytes.fromhex]: pairs of hexadecimal digits, ASCII white space allowed
    between the pairs; [None] stands for its [ValueError]. *)
Fixpoint fromhex (s : list ascii) : option (list ascii) :=
  match s with
  | [] => Some []
  | c :: s' =>
      if Py_ISSPACE c then fromhex s'
      else match s' with
           | [] => None
           | d :: s'' =>
               match digit_value c, digit_value d with
               | Some hi, Some lo =>
                   match fromhex s'' with
                   | Some bs => Some (ascii_of_N (16 * hi + lo) :: bs)
                   | None => None
                   end
               | _, _ => None
               end
           end
  end.

(** [ObjectId(oid)] for a [str] argument: the string must have 24 characters
    and be accepted by [bytes.fromhex]; anything else is [InvalidId]. *)
Definition ObjectId_of_str (oid : string) : result ObjectId :=
  if Nat.eqb (String.length oid) 24 then
    match fromhex (list_ascii_of_string oid) with
    | Some bs => Ok (Oid bs)
    | None => Raise InvalidId
    end
  else Raise InvalidId.

(** ** The document store *)

(** A stored document.  MongoDB gives every document an [_id]; the handlers
    never supply their own, so it is always the ObjectId that the driver
    generated.  [as_dict] is the dict that a query returns for it. *)
Record document := Document { doc_id : ObjectId; fields : pydict }.

Definition as_dict (d : document) : pydict :=
  <["_id" := VOid (doc_id d)]> (fields d).

(** A query filter [{k1: v1, ...}] selects the documents that bind every
    key of the filter to the same value. *)
Definition find (flt : pydict) (c : list document) : list document :=
  filter (λ d, flt ⊆ as_dict d) c.

Definition find_one (flt : pydict) (c : list document) : option document :=
  head (find flt c).

(** [delete_one]: removes the first match; the second component is
    [deleted_count]. *)
Fixpoint delete_one (flt : pydict) (c : list document) : list document * Z :=
  match c with
  | [] => ([], 0%Z)
  | d :: c' =>
      if decide (flt ⊆ as_dict d) then (c', 1%Z)
      else let '(c'', n) := delete_one flt c' in (d :: c'', n)
  end.

(** BSON, the encoding in which a document is stored.  An int must fit in
    64 bits, or encoding it raises OverflowError; a datetime is stored in
    whole milliseconds, so its microseconds below the millisecond are lost;
    strings, floats, None and ObjectIds are stored as they are. *)
Definition int64_min : Z := - 2 ^ 63.
Definition int64_max : Z := 2 ^ 63 - 1.

Definition bson_encodable (v : value) : bool :=
  match v with
  | VInt z => (int64_min <=? z)%Z && (z <=? int64_max)%Z
  | _ => true
  end.

Definition bson_value (v : value) : value :=
  match v with
  | VDate t => VDate (t `div` 1000 * 1000)
  | _ => v
  end.

Definition bson_encode (d : pydict) : result pydict :=
  if bool_decide (map_Forall (λ _ v, bson_encodable v = true) d)
  then Ok (bson_value <$> d)
  else Raise OverflowError.

(** [insert_one]: the driver adds the [_id] it generated (the handlers never
    supply one) and encodes the document; when the encoding fails nothing is
    stored, otherwise the encoded document goes to the end of the
    collection. *)
Definition insert_one (oid : ObjectId) (d : pydict) (c : list document)
  : result (list document) :=
  encoded ← bson_encode d;
  Ok (c ++ [Document oid encoded])%list.

(** Sort key of [.sort("created_at", -1)]: a datetime, or nothing ([null]
    and missing fields sort below every datetime). *)
Definition created_key (d : pydict) : option Z :=
  match d !! "created_at" with
  | Some (VDate t) => Some t
  | _ => None
  end.

Definition key_le (a b : option Z) : Prop :=
  match a, b with
  | None, _ => True
  | Some _, None => False
  | Some x, Some y => (x ≤ y)%Z
  end.

(** [newer_first d1 d2]: [d1] may stand before [d2] in descending order. *)
Definition newer_first (d1 d2 : pydict) : Prop :=
  key_le (created_key d2) (created_key d1).

Global Instance key_le_dec a b : Decision (key_le a b).
Proof. destruct a, b; simpl; apply _. Defined.
Global Instance newer_first_dec : RelDecision newer_first.
Proof. intros d1 d2. unfold newer_first. apply _. Defined.

Definition sort_created_desc (c : list document) : list document :=
  merge_sort (λ d1 d2, newer_first (as_dict d1) (as_dict d2)) c.

(** [.to_list(n)] *)
Definition to_list (n : nat) (c : list document) : list document := take n c.

(** The database: the users and the six record collections. *)
Record DB := mkDB {
  users : list document;
  seedlings_received : list document;
  delivery_notes : list document;
  dead_seedlings : list document;
  discarded_seedlings : list document;
  nursery_produced : list document;
  distributed_seedlings : list document
}.

Definition empty_db : DB := mkDB [] [] [] [] [] [] [].

(** The six record resources of the API. *)
Inductive resource :=
| SeedlingsReceived | DeliveryNotes | DeadSeedlings
| DiscardedSeedlings | NurseryProduced | DistributedSeedlings.

Global Instance resource_eq_dec : EqDecision resource.
Proof. solve_decision. Defined.

Definition coll (r : resource) (db : DB) : list document :=
  match r with
  | SeedlingsReceived => seedlings_received db
  | DeliveryNotes => delivery_notes db
  | DeadSeedlings => dead_seedlings db
  | DiscardedSeedlings => discarded_seedlings db
  | NurseryProduced => nursery_produced db
  | DistributedSeedlings => distributed_seedlings db
  end.

Definition set_coll (r : resource) (c : list document) (db : DB) : DB :=
  match r with
  | SeedlingsReceived =>
      mkDB (users db) c (delivery_notes db) (dead_seedlings db)
        (discarded_seedlings db) (nursery_produced db) (distributed_seedlings db)
  | DeliveryNotes =>
      mkDB (users db) (seedlings_received db) c (dead_seedlings db)
        (discarded_seedlings db) (nursery_produced db) (distributed_seedlings db)
  | DeadSeedlings =>
      mkDB (users db) (seedlings_received db) (delivery_notes db) c
        (discarded_seedlings db) (nursery_produced db) (distributed_seedlings db)
  | DiscardedSeedlings =>
      mkDB (users db) (seedlings_received db) (delivery_notes db) (dead_seedlings db)
        c (nursery_produced db) (distributed_seedlings db)
  | NurseryProduced =>
      mkDB (users db) (seedlings_received db) (delivery_notes db) (dead_seedlings db)
        (discarded_seedlings db) c (distributed_seedlings db)
  | DistributedSeedlings =>
      mkDB (users db) (seedlings_received db) (delivery_notes db) (dead_seedlings db)
        (discarded_seedlings db) (nursery_produced db) c
  end.

Definition set_users (c : list document) (db : DB) : DB :=
  mkDB c (seedlings_received db) (delivery_notes db) (dead_seedlings db)
    (discarded_seedlings db) (nursery_produced db) (distributed_seedlings db).

(** ** The request models (pydantic) and their [.dict()] *)

(** [created_at: Optional[datetime] = Field(default_factory=datetime.utcnow)]:
    the client may send a datetime or null; when the field is omitted the
    default factory has already filled it in when the handler runs. *)
Definition created_at_value (t : option Z) : value :=
  match t with
  | Some t => VDate t
  | None => VNone
  end.

Module SeedlingReceived.
Record t := Build {
  date : string; type : string; supplier : string; price : spec_float;
  lot_number : string; quantity : Z; user_id : string; created_at : option Z }.
Definition dict (m : t) : pydict :=
  list_to_map
    [("date", VStr (date m)); ("type", VStr (type m));
     ("supplier", VStr (supplier m)); ("price", VFloat (price m));
     ("lot_number", VStr (lot_number m)); ("quantity", VInt (quantity m));
     ("user_id", VStr (user_id m));
     ("created_at", created_at_value (created_at m))].
End SeedlingReceived.

Module DeliveryNote.
Record t := Build {
  date : string; type : string; expected_quantity : Z; actual_quantity : Z;
  user_id : string; created_at : option Z }.
Definition dict (m : t) : pydict :=
  list_to_map
    [("date", VStr (date m)); ("type", VStr (type m));
     ("expected_quantity", VInt (expected_quantity m));
     ("actual_quantity", VInt (actual_quantity m));
     ("user_id", VStr (user_id m));
     ("created_at", created_at_value (created_at m))].
End DeliveryNote.

Module DeadSeedling.
Record t := Build {
  date : string; type : string; quantity : Z;
  user_id : string; created_at : option Z }.
Definition dict (m : t) : pydict :=
  list_to_map
    [("date", VStr (date m)); ("type", VStr (type m));
     ("quantity", VInt (quantity m)); ("user_id", VStr (user_id m));
     ("created_at", created_at_value (created_at m))].
End DeadSeedling.

Module DiscardedSeedling.
Record t := Build {
  date : string; type : string; quantity : Z;
  user_id : string; created_at : option Z }.
Definition dict (m : t) : pydict :=
  list_to_map
    [("date", VStr (date m)); ("type", VStr (type m));
     ("quantity", VInt (quantity m)); ("user_id", VStr (user_id m));
     ("created_at", created_at_value (created_at m))].
End DiscardedSeedling.

Module NurseryProduced.
Record t := Build {
  date : string; type : string; quantity : Z; parent_plant : string;
  propagation_method : string; user_id : string; created_at : option Z }.
Definition dict (m : t) : pydict :=
  list_to_map
    [("date", VStr (date m)); ("type", VStr (type m));
     ("quantity", VInt (quantity m)); ("parent_plant", VStr (parent_plant m));
     ("propagation_method", VStr (propagation_method m));
     ("user_id", VStr (user_id m));
     ("created_at", created_at_value (created_at m))].
End NurseryProduced.

Module DistributedSeedling.
Record t := Build {
  date : string; type : string; quantity : Z; destination : string;
  location : string; user_id : string; created_at : option Z }.
Definition dict (m : t) : pydict :=
  list_to_map
    [("date", VStr (date m)); ("type", VStr (type m));
     ("quantity", VInt (quantity m)); ("destination", VStr (destination m));
     ("location", VStr (location m)); ("user_id", VStr (user_id m));
     ("created_at", created_at_value (created_at m))].
End DistributedSeedling.

(** [UserRegister] and [UserLogin] have the same two fields. *)
Record UserRegister := { username : string; password : string }.
Abbreviation UserLogin := UserRegister.

(** The fields of the response models; none has a default, so all are
    required. *)
Definition Token_fields : list string :=
  ["access_token"; "token_type"; "username"].

Definition DashboardStats_fields : list string :=
  ["total_received"; "total_dead"; "total_discarded"; "total_produced";
   "total_distributed"; "survival_rate"; "total_in_nursery"].

(** [response_model=M] on a route: FastAPI validates what the handler
    returned against [M] and sends only the fields of [M]; a required
    field that is missing makes the request fail.  (Coercion of the field
    values to the declared types is not modelled.) *)
Definition response_model (model_fields : list string) (content : pydict)
  : result pydict :=
  if forallb (λ k, bool_decide (is_Some (content !! k))) model_fields
  then Ok (filter (λ kv, kv.1 ∈ model_fields) content)
  else Raise ResponseValidationError.

(** ** The record endpoints

    The six resources have the same three handlers, which differ in the
    collection and in the request model only; each is written once over
    the [resource] and instantiated under the name it has in the source.
    A handler is modelled up to the value it returns or the exception it
    raises; how the framework then renders a returned value as JSON is not
    part of the model. *)

(** POST /api/{resource}: [record_dict] is the request model's [.dict()]. *)
Definition create_record (r : resource) (record_dict : pydict)
    (username : string) (oid : ObjectId) (db : DB) : result pydict * DB :=
  let record_dict := <["user_id" := VStr username]> record_dict in
  match insert_one oid record_dict (coll r db) with
  | Raise e => (Raise e, db)
  | Ok c =>
      let db' := set_coll r c db in
      (* insert_one has put the generated _id into record_dict *)
      let record_dict := <["_id" := VOid oid]> record_dict in
      let record_dict := <["_id" := VStr (str_of_ObjectId oid)]> record_dict in
      (Ok record_dict, db')
  end.

(** [s["_id"] = str(s["_id"])] *)
Definition stringify_id (s : document) : pydict :=
  <["_id" := VStr (str_of_ObjectId (doc_id s))]> (as_dict s).

(** GET /api/{resource} *)
Definition list_records (r : resource) (username : string) (db : DB)
  : result (list pydict) :=
  let seedlings :=
    to_list 1000
      (sort_created_desc (find {["user_id" := VStr username]} (coll r db))) in
  Ok (stringify_id <$> seedlings).

(** DELETE /api/{resource}/{id} *)
Definition delete_record (r : resource) (id : string) (username : string)
    (db : DB) : result pydict * DB :=
  match ObjectId_of_str id with
  | Raise e => (Raise e, db)
  | Ok oid =>
      let '(c, deleted_count) :=
        delete_one (<["_id" := VOid oid]> {["user_id" := VStr username]})
          (coll r db) in
      let db' := set_coll r c db in
      if (deleted_count =? 0)%Z
      then (Raise (HTTPException 404 "Item not found"), db')
      else (Ok {["message" := VStr "Deleted successfully"]}, db')
  end.

Definition create_seedling_received (seedling : SeedlingReceived.t) :=
  create_record SeedlingsReceived (SeedlingReceived.dict seedling).
Definition get_seedlings_received := list_records SeedlingsReceived.
Definition delete_seedling_received := delete_record SeedlingsReceived.

Definition create_delivery_note (note : DeliveryNote.t) :=
  create_record DeliveryNotes (DeliveryNote.dict note).
Definition get_delivery_notes := list_records DeliveryNotes.
Definition delete_delivery_note := delete_record DeliveryNotes.

Definition create_dead_seedling (seedling : DeadSeedling.t) :=
  create_record DeadSeedlings (DeadSeedling.dict seedling).
Definition get_dead_seedlings := list_records DeadSeedlings.
Definition delete_dead_seedling := delete_record DeadSeedlings.

Definition create_discarded_seedling (seedling : DiscardedSeedling.t) :=
  create_record DiscardedSeedlings (DiscardedSeedling.dict seedling).
Definition get_discarded_seedlings := list_records DiscardedSeedlings.
Definition delete_discarded_seedling := delete_record DiscardedSeedlings.

Definition create_nursery_produced (seedling : NurseryProduced.t) :=
  create_record NurseryProduced (NurseryProduced.dict seedling).
Definition get_nursery_produced := list_records NurseryProduced.
Definition delete_nursery_produced := delete_record NurseryProduced.

Definition create_distributed_seedling (seedling : DistributedSeedling.t) :=
  create_record DistributedSeedlings (DistributedSeedling.dict seedling).
Definition get_distributed_seedlings := list_records DistributedSeedlings.
Definition delete_distributed_seedling := delete_record DistributedSeedlings.

(** A POST request to one of the six resources, with its parsed body. *)
Inductive create_request :=
| PostSeedlingReceived (seedling : SeedlingReceived.t)
| PostDeliveryNote (note : DeliveryNote.t)
| PostDeadSeedling (seedling : DeadSeedling.t)
| PostDiscardedSeedling (seedling : DiscardedSeedling.t)
| PostNurseryProduced (seedling : NurseryProduced.t)
| PostDistributedSeedling (seedling : DistributedSeedling.t).

Definition resource_of (req : create_request) : resource :=
  match req with
  | PostSeedlingReceived _ => SeedlingsReceived
  | PostDeliveryNote _ => DeliveryNotes
  | PostDeadSeedling _ => DeadSeedlings
  | PostDiscardedSeedling _ => DiscardedSeedlings
  | PostNurseryProduced _ => NurseryProduced
  | PostDistributedSeedling _ => DistributedSeedlings
  end.

(** The [user_id] that the client put in the body. *)
Definition client_user_id (req : create_request) : string :=
  match req with
  | PostSeedlingReceived m => SeedlingReceived.user_id m
  | PostDeliveryNote m => DeliveryNote.user_id m
  | PostDeadSeedling m => DeadSeedling.user_id m
  | PostDiscardedSeedling m => DiscardedSeedling.user_id m
  | PostNurseryProduced m => NurseryProduced.user_id m
  | PostDistributedSeedling m => DistributedSeedling.user_id m
  end.

(** The router: each POST path goes to its handler. *)
Definition post (req : create_request) (username : string) (oid : ObjectId)
    (db : DB) : result pydict * DB :=
  match req with
  | PostSeedlingReceived m => create_seedling_received m username oid db
  | PostDeliveryNote m => create_delivery_note m username oid db
  | PostDeadSeedling m => create_dead_seedling m username oid db
  | PostDiscardedSeedling m => create_discarded_seedling m username oid db
  | PostNurseryProduced m => create_nursery_produced m username oid db
  | PostDistributedSeedling m => create_distributed_seedling m username oid db
  end.

(** ** Authentication *)

Definition SECRET_KEY : string := "nursery_secret_key_change_in_production".
Definition ALGORITHM : string := "HS256".

(** The two cryptographic libraries, by their contracts.  passlib's bcrypt
    context: [hash] and [verify] refuse some passwords by raising an
    exception (a password with a NUL byte among them; which others depends
    on the versions installed), [verify] also raises on a stored value that
    is no hash it recognises; a hash that [hash] returned is recognised by
    [verify] for the same password.  The signing layer of PyJWT: what was
    signed with a key is read back with that key.  A payload can be signed
    when its values are JSON strings and numbers. *)
Definition has_nul (s : string) : bool :=
  bool_decide (Ascii.zero ∈ list_ascii_of_string s).

Definition json_value (v : value) : Prop :=
  match v with
  | VStr _ | VInt _ => True
  | _ => False
  end.

Class Crypto := {
  pwd_context_hash : string → string → result string;   (* salt, password *)
  pwd_context_verify : string → string → result bool;   (* password, hash *)
  jws_encode : pydict → string → string → string;    (* payload, key, alg *)
  jws_decode : string → string → string → option pydict;
  pwd_context_hash_nul salt pw :
    has_nul pw = true → pwd_context_hash salt pw = Raise ValueError;
  pwd_context_verify_nul pw hashed :
    has_nul pw = true → pwd_context_verify pw hashed = Raise ValueError;
  pwd_context_verify_hash salt pw hashed :
    pwd_context_hash salt pw = Ok hashed →
    pwd_context_verify pw hashed = Ok true;
  jws_decode_encode payload key alg :
    map_Forall (λ _, json_value) payload →
    jws_decode (jws_encode payload key alg) key alg = Some payload
}.

Section auth.
Context `{Crypto}.

Definition verify_password (plain_password hashed_password : string)
  : result bool :=
  pwd_context_verify plain_password hashed_password.

Definition get_password_hash (salt password : string) : result string :=
  pwd_context_hash salt password.

Definition microseconds : Z := 1000000.
Definition timedelta_days (n : Z) : Z := n * 86400 * microseconds.

(** [jwt.encode]: a datetime in the [exp] claim becomes whole seconds since
    the epoch ([timegm(exp.utctimetuple())]); then the payload is signed. *)
Definition jwt_encode (payload : pydict) (key algorithm : string) : string :=
  let payload :=
    match payload !! "exp" with
    | Some (VDate t) => <["exp" := VInt (t `div` microseconds)]> payload
    | _ => payload
    end in
  jws_encode payload key algorithm.

(** [jwt.decode] at time [now]: the signature is checked, then the [exp]
    claim: the token has expired when [exp <= now]. *)
Definition jwt_decode (token key algorithm : string) (now : Z) : result pydict :=
  match jws_decode token key algorithm with
  | None => Raise DecodeError
  | Some payload =>
      match payload !! "exp" with
      | None => Ok payload
      | Some (VInt exp) =>
          if (exp * microseconds <=? now)%Z then Raise ExpiredSignatureError
          else Ok payload
      | Some _ => Raise DecodeError
      end
  end.

(** [now] is [datetime.utcnow()]. *)
Definition create_access_token (data : pydict) (now : Z) : string :=
  let to_encode := data in
  let expire := (now + timedelta_days 30)%Z in
  let to_encode := <["exp" := VDate expire]> to_encode in
  jwt_encode to_encode SECRET_KEY ALGORITHM.

(** The bearer-token check of every protected route.  The module [jwt] that
    provides [encode], [decode] and [ExpiredSignatureError] is PyJWT, which
    has no attribute [JWTError]: when an exception other than
    [ExpiredSignatureError] reaches the second [except] clause (a failed
    decode, or the [HTTPException] raised inside the [try] for a missing
    subject) evaluating [jwt.JWTError] raises [AttributeError].  A subject
    that is not a string is rejected by [jwt.decode]. *)
Definition get_current_user (token : string) (now : Z) : result string :=
  match jwt_decode token SECRET_KEY ALGORITHM now with
  | Ok payload =>
      match payload !! "sub" with
      | Some (VStr username) => Ok username
      | _ => Raise AttributeError
      end
  | Raise ExpiredSignatureError => Raise (HTTPException 401 "Token expired")
  | Raise _ => Raise AttributeError
  end.

(** Truth value of the result of [find_one]: [None] and the empty dict are
    false. *)
Definition truthy (d : option document) : bool :=
  match d with
  | Some d => negb (bool_decide (as_dict d = ∅))
  | None => false
  end.

Definition token_response (access_token username : string) : pydict :=
  list_to_map
    [("access_token", VStr access_token); ("token_type", VStr "bearer");
     ("username", VStr username)].

(** POST /api/auth/register.  [salt] is the salt that bcrypt draws, [oid]
    the id that the driver generates, [now_doc] and [now_token] the two
    readings of the clock.  An exception of [get_password_hash] or of
    [insert_one] ends the request before anything is stored. *)
Definition register (user : UserRegister) (salt : string) (oid : ObjectId)
    (now_doc now_token : Z) (db : DB) : result pydict * DB :=
  let existing_user :=
    find_one {["username" := VStr (username user)]} (users db) in
  if truthy existing_user
  then (Raise (HTTPException 400 "Username already exists"), db)
  else
    match get_password_hash salt (password user) with
    | Raise e => (Raise e, db)
    | Ok hashed_password =>
        let user_doc : pydict :=
          list_to_map
            [("username", VStr (username user));
             ("password", VStr hashed_password);
             ("created_at", VDate now_doc)] in
        match insert_one oid user_doc (users db) with
        | Raise e => (Raise e, db)
        | Ok c =>
            let db' := set_users c db in
            let access_token :=
              create_access_token {["sub" := VStr (username user)]} now_token in
            (response_model Token_fields
               (token_response access_token (username user)), db')
        end
    end.

(** POST /api/auth/login *)
Definition login (user : UserLogin) (now : Z) (db : DB) : result pydict :=
  let db_user := find_one {["username" := VStr (username user)]} (users db) in
  match db_user with
  | Some d =>
      if truthy db_user then
        match as_dict d !! "password" with
        | None => Raise KeyError
        | Some (VStr hashed) =>
            match verify_password (password user) hashed with
            | Raise e => Raise e
            | Ok true =>
                let access_token :=
                  create_access_token {["sub" := VStr (username user)]} now in
                response_model Token_fields
                  (token_response access_token (username user))
            | Ok false => Raise (HTTPException 401 "Invalid credentials")
            end
        | Some _ => Raise TypeError
        end
      else Raise (HTTPException 401 "Invalid credentials")
  | None => Raise (HTTPException 401 "Invalid credentials")
  end.

End auth.

(** ** Python numbers: true division, float product, [round] *)

(** Python's [float] is IEEE 754 binary64. *)
Definition prec : Z := 53.
Definition emax : Z := 1024.

(** An integer as an exact (not yet rounded) binary number. *)
Definition SF_of_int (z : Z) : spec_float :=
  match z with
  | Z0 => S754_zero false
  | Zpos p => S754_finite false p 0
  | Zneg p => S754_finite true p 0
  end.

(** [float(z)], for an integer within the range of the floats. *)
Definition float_of_int (z : Z) : spec_float :=
  binary_normalize prec emax z 0 false.

(** [a / b] on two ints: the quotient rounded once, to the nearest float. *)
Definition int_truediv (a b : Z) : result spec_float :=
  if (b =? 0)%Z then Raise ZeroDivisionError
  else match SFdiv prec emax (SF_of_int a) (SF_of_int b) with
       | S754_infinity _ => Raise OverflowError
       | q => Ok q
       end.

(** [x * n] for a float [x] and an int [n]. *)
Definition float_mul_int (x : spec_float) (n : Z) : spec_float :=
  SFmul prec emax x (float_of_int n).

(** [num / den] rounded to the nearest integer, ties to even ([0 < den]). *)
Definition round_half_even (num den : Z) : Z :=
  let q := (num `div` den)%Z in
  let r := (num `mod` den)%Z in
  if (2 * r <? den)%Z then q
  else if (den <? 2 * r)%Z then (q + 1)%Z
  else if Z.even q then q else (q + 1)%Z.

(** The decimal [± n / 10^ndigits] as a float: the nearest one. *)
Definition float_of_decimal (neg : bool) (n : Z) (ndigits : Z) : spec_float :=
  match n with
  | Zpos p => SFdiv prec emax (S754_finite neg p 0) (SF_of_int (10 ^ ndigits))
  | _ => S754_zero neg
  end.

(** The number of units of [10^-ndigits] nearest to the exact value of a
    finite float, ties to even, and its sign. *)
Definition decimal_digits (x : spec_float) (ndigits : Z) : bool * Z :=
  match x with
  | S754_finite s m e =>
      let scaled := (Zpos m * 10 ^ ndigits)%Z in
      (s, match e with
          | Zneg k => round_half_even scaled (2 ^ Zpos k)
          | _ => (scaled * 2 ^ e)%Z
          end)
  | S754_zero s => (s, 0%Z)
  | _ => (false, 0%Z)
  end.

(** [round(x, ndigits)] for a float and [0 <= ndigits]: CPython prints the
    exact binary value with [ndigits] decimals, correctly rounded, and reads
    the decimal back. *)
Definition float_round (x : spec_float) (ndigits : Z) : spec_float :=
  match x with
  | S754_finite _ _ _ | S754_zero _ =>
      let '(s, n) := decimal_digits x ndigits in float_of_decimal s n ndigits
  | _ => x
  end.

(** [round(v, ndigits)] with [0 <= ndigits]: an int is returned as it is. *)
Definition py_round (v : value) (ndigits : Z) : result value :=
  match v with
  | VInt z => Ok (VInt z)
  | VFloat x => Ok (VFloat (float_round x ndigits))
  | _ => Raise TypeError
  end.

(** [sum(...)] over ints, from [acc].  The models declare [quantity: int],
    so every quantity stored through the API is an int.  A value that is
    not an int stops the model with [TypeError]: that is what Python does
    for None, a str or a datetime; on a float, which only a write from
    outside the API can put there, Python would go on in floating point,
    and the model does not follow it. *)
Fixpoint py_sum_from (acc : Z) (vs : list value) : result Z :=
  match vs with
  | [] => Ok acc
  | VInt z :: vs => py_sum_from (acc + z) vs
  | _ :: _ => Raise TypeError
  end.

Definition py_sum (vs : list value) : result Z := py_sum_from 0 vs.

(** ** Dashboard statistics *)

(** [s.get("quantity", 0)] *)
Definition get_quantity (s : document) : value :=
  default (VInt 0) (as_dict s !! "quantity").

(** [((total_in_nursery / total_input) * 100) if total_input > 0 else 0] *)
Definition survival_rate_of (total_in_nursery total_input : Z) : result value :=
  if (0 <? total_input)%Z then
    q ← int_truediv total_in_nursery total_input;
    Ok (VFloat (float_mul_int q 100))
  else Ok (VInt 0).

(** The body of the handler of GET /api/dashboard/stats: the dict that it
    returns. *)
Definition get_dashboard_stats (username : string) (db : DB) : result pydict :=
  let received :=
    to_list 1000 (find {["user_id" := VStr username]} (seedlings_received db)) in
  let dead :=
    to_list 1000 (find {["user_id" := VStr username]} (dead_seedlings db)) in
  let discarded :=
    to_list 1000 (find {["user_id" := VStr username]} (discarded_seedlings db)) in
  let produced :=
    to_list 1000 (find {["user_id" := VStr username]} (nursery_produced db)) in
  total_received ← py_sum (get_quantity <$> received);
  total_dead ← py_sum (get_quantity <$> dead);
  total_discarded ← py_sum (get_quantity <$> discarded);
  total_produced ← py_sum (get_quantity <$> produced);
  let total_in_nursery :=
    (total_received + total_produced - total_dead - total_discarded)%Z in
  let total_input := (total_received + total_produced)%Z in
  survival_rate ← survival_rate_of total_in_nursery total_input;
  rounded ← py_round survival_rate 2;
  Ok (list_to_map
        [("total_received", VInt total_received);
         ("total_dead", VInt total_dead);
         ("total_discarded", VInt total_discarded);
         ("total_produced", VInt total_produced);
         ("survival_rate", rounded);
         ("total_in_nursery", VInt total_in_nursery)]).

(** The route: [response_model=DashboardStats] is applied to what the
    handler returned. *)
Definition dashboard_stats_route (username : string) (db : DB) : result pydict :=
  content ← get_dashboard_stats username db;
  response_model DashboardStats_fields content.

(** The survival rate as the specification writes it,
    [round(100 * totalInNursery / totalInput, 2)]: one product of integers,
    one division, one rounding to two decimals. *)
Definition spec_survival_rate (total_in_nursery total_input : Z) : result value :=
  q ← int_truediv (100 * total_in_nursery) total_input;
  py_round (VFloat q) 2.

(** ** CSV export *)

(** What the handler writes to its [io.StringIO], in order: text written
    with [output.write], and rows written through [csv.DictWriter]. *)
Inductive chunk :=
| WriteText (s : string)
| WriteRow (row : list value).

Definition LF : string := String (ascii_of_nat 10) EmptyString.

Definition header_received : string := LF +:+ "=== SEEDLINGS RECEIVED ===" +:+ LF.
Definition header_delivery : string :=
  LF +:+ LF +:+ "=== DELIVERY NOTES ===" +:+ LF.
Definition header_dead : string :=
  LF +:+ LF +:+ "=== DEAD SEEDLINGS ===" +:+ LF.
Definition header_discarded : string :=
  LF +:+ LF +:+ "=== DISCARDED SEEDLINGS ===" +:+ LF.
Definition header_produced : string :=
  LF +:+ LF +:+ "=== NURSERY PRODUCED ===" +:+ LF.

(** [item.get(k)] for each field name, in the order of [fieldnames]. *)
Definition row_of (fieldnames : list string) (item : document) : list value :=
  (λ k, default VNone (as_dict item !! k)) <$> fieldnames.

(** [if items: writer.writeheader(); for item in items: writer.writerow(...)] *)
Definition write_table (fieldnames : list string) (items : list document)
  : list chunk :=
  match items with
  | [] => []
  | _ :: _ =>
      WriteRow (VStr <$> fieldnames) :: (WriteRow ∘ row_of fieldnames <$> items)
  end.

(** GET /api/export/csv: the writes that make up the body. *)
Definition export_to_csv (username : string) (db : DB) : list chunk :=
  let received :=
    to_list 1000 (find {["user_id" := VStr username]} (seedlings_received db)) in
  let delivery :=
    to_list 1000 (find {["user_id" := VStr username]} (delivery_notes db)) in
  let dead :=
    to_list 1000 (find {["user_id" := VStr username]} (dead_seedlings db)) in
  let discarded :=
    to_list 1000 (find {["user_id" := VStr username]} (discarded_seedlings db)) in
  let produced :=
    to_list 1000 (find {["user_id" := VStr username]} (nursery_produced db)) in
  [WriteText header_received]
  ++ write_table
       ["date"; "type"; "supplier"; "price"; "lot_number"; "quantity"] received
  ++ [WriteText header_delivery]
  ++ write_table ["date"; "type"; "expected_quantity"; "actual_quantity"] delivery
  ++ [WriteText header_dead]
  ++ write_table ["date"; "type"; "quantity"] dead
  ++ [WriteText header_discarded]
  ++ write_table ["date"; "type"; "quantity"] discarded
  ++ [WriteText header_produced]
  ++ write_table
       ["date"; "type"; "quantity"; "parent_plant"; "propagation_method"] produced.

(** The text written by [output.write], in order. *)
Definition written_text (out : list chunk) : list string :=
  omap (λ c, match c with WriteText s => Some s | WriteRow _ => None end) out.

(** The rows written through the csv writers, in order. *)
Definition written_rows (out : list chunk) : list (list value) :=
  omap (λ c, match c with WriteText _ => None | WriteRow r => Some r end) out.

Section getvalue.
(** How the csv module prints one row (cells, quoting, line terminator). *)
Variable csv_line : list value → string.

(** [output.getvalue()] *)
Definition getvalue (out : list chunk) : string :=
  foldr (λ c acc,
           match c with
           | WriteText s => s +:+ acc
           | WriteRow r => csv_line r +:+ acc
           end) "" out.
End getvalue.

(** The instant at which a token issued at [now] expires. *)
Definition expires_at (now : Z) : Z :=
  ((now + timedelta_days 30) `div` microseconds * microseconds)%Z.

(** Store invariant of MongoDB: [_id] is unique within a collection. *)
Definition unique_ids (c : list document) : Prop := NoDup (doc_id <$> c).

(** The documents of [username] in a collection, as a query sees them. *)
Definition owned_by (username : string) (c : list document) : list document :=
  find {["user_id" := VStr username]} c.

(** The quantity of a document whose quantity is an int (or missing). *)
Definition int_quantity (s : document) : Z :=
  match get_quantity s with
  | VInt z => z
  | _ => 0%Z
  end.

(** Mathematical sum of the quantities of a list of documents. *)
Definition total_quantity (l : list document) : Z :=
  foldr (λ s acc, (int_quantity s + acc)%Z) 0%Z l.

(** The dashboard as the specification states it: totals over all records of
    the owner, and the survival rate by [spec_survival_rate]. *)
Definition spec_dashboard (username : string) (db : DB) : result pydict :=
  let total_received := total_quantity (owned_by username (seedlings_received db)) in
  let total_dead := total_quantity (owned_by username (dead_seedlings db)) in
  let total_discarded := total_quantity (owned_by username (discarded_seedlings db)) in
  let total_produced := total_quantity (owned_by username (nursery_produced db)) in
  let total_in_nursery :=
    (total_received + total_produced - total_dead - total_discarded)%Z in
  survival_rate ←
    spec_survival_rate total_in_nursery (total_received + total_produced);
  Ok (list_to_map
        [("total_received", VInt total_received);
         ("total_dead", VInt total_dead);
         ("total_discarded", VInt total_discarded);
         ("total_produced", VInt total_produced);
         ("survival_rate", survival_rate);
         ("total_in_nursery", VInt total_in_nursery)]).

(** The dict that the handler builds from its four totals. *)
Definition stats_dict (total_received total_dead total_discarded total_produced : Z)
    (survival_rate : value) : pydict :=
  list_to_map
    [("total_received", VInt total_received);
     ("total_dead", VInt total_dead);
     ("total_discarded", VInt total_discarded);
     ("total_produced", VInt total_produced);
     ("survival_rate", survival_rate);
     ("total_in_nursery",
      VInt (total_received + total_produced - total_dead - total_discarded))].

(** A record with a quantity, for examples. *)
Definition example_id (n : nat) : ObjectId :=
  Oid (replicate 10 "000"%char ++ [ascii_of_nat (n / 256); ascii_of_nat (n mod 256)]).

Definition quantity_record (n : nat) (username : string) (quantity : Z) : document :=
  Document (example_id n)
    {["user_id" := VStr username; "quantity" := VInt quantity]}.

(** A store with one record of bob and one of alice, for examples. *)
Definition db_two_owners : DB :=
  mkDB [] [quantity_record 7 "bob" 4; quantity_record 8 "alice" 2] [] [] [] [] [].

(** Records with a creation time, for examples. *)
Definition dated_record (n : nat) (username : string) (t : Z) : document :=
  Document (example_id n)
    {["user_id" := VStr username; "created_at" := VDate t]}.

Definition db_dated : DB :=
  mkDB [] [] [dated_record 1 "alice" 50; dated_record 2 "bob" 70;
              dated_record 3 "alice" 90; dated_record 4 "alice" 60] [] [] [] [].

Definition sum_Z (l : list Z) : Z := foldr Z.add 0%Z l.

(** One entry of a result that is a dict. *)
Definition stat (k : string) (r : result pydict) : option value :=
  match r with
  | Ok d => d !! k
  | Raise _ => None
  end.

(** Received [10, 5], Dead [2], Discarded [1], Produced [3] for alice, and a
    record of bob. *)
Definition db_example : DB :=
  mkDB []
    [quantity_record 1 "alice" 10; quantity_record 2 "bob" 40;
     quantity_record 3 "alice" 5]
    []
    [quantity_record 4 "alice" 2]
    [quantity_record 5 "alice" 1]
    [quantity_record 6 "alice" 3]
    [].

(** 160 received, 137 dead: 23 of 160 remain, exactly 14.375 per cent. *)
Definition db_tie : DB :=
  mkDB [] [quantity_record 1 "alice" 160] [] [quantity_record 2 "alice" 137]
    [] [] [].

(** A negative quantity, which the request models accept. *)
Definition db_negative : DB :=
  mkDB [] [quantity_record 1 "alice" (-10)] [] [] [] [] [].

(** 1001 received records of one seedling each. *)
Definition db_large : DB :=
  mkDB [] ((λ n, quantity_record n "alice" 1) <$> seq 0 1001) [] [] [] [] [].

(** *** An instance of the cryptographic contracts

    It shows that the contracts of [Crypto] can be met together; it is a
    plain encoding without any secrecy, used for examples only. *)

Global Instance ObjectId_countable : Countable ObjectId.
Proof. refine (inj_countable' binary Oid _). by intros []. Defined.

Global Instance spec_float_countable : Countable spec_float.
Proof.
  refine (inj_countable'
    (λ f, match f with
          | S754_zero s => inl s
          | S754_infinity s => inr (inl s)
          | S754_nan => inr (inr (inl ()))
          | S754_finite s m e => inr (inr (inr (s, m, e)))
          end)
    (λ x, match x with
          | inl s => S754_zero s
          | inr (inl s) => S754_infinity s
          | inr (inr (inl _)) => S754_nan
          | inr (inr (inr (s, m, e))) => S754_finite s m e
          end) _).
  by intros [].
Defined.

Global Instance value_countable : Countable value.
Proof.
  refine (inj_countable'
    (λ v, match v with
          | VNone => inl ()
          | VStr s => inr (inl s)
          | VInt z => inr (inr (inl z))
          | VFloat f => inr (inr (inr (inl f)))
          | VDate t => inr (inr (inr (inr (inl t))))
          | VOid o => inr (inr (inr (inr (inr o))))
          end)
    (λ x, match x with
          | inl _ => VNone
          | inr (inl s) => VStr s
          | inr (inr (inl z)) => VInt z
          | inr (inr (inr (inl f))) => VFloat f
          | inr (inr (inr (inr (inl t)))) => VDate t
          | inr (inr (inr (inr (inr o)))) => VOid o
          end) _).
  by intros [].
Defined.

Fixpoint bits_of_pos (p : positive) : string :=
  match p with
  | xH => ""
  | xO p => String "0" (bits_of_pos p)
  | xI p => String "1" (bits_of_pos p)
  end.

Fixpoint pos_of_bits (s : string) : option positive :=
  match s with
  | EmptyString => Some xH
  | String c s =>
      match pos_of_bits s with
      | Some p =>
          if Ascii.eqb c "0" then Some (xO p)
          else if Ascii.eqb c "1" then Some (xI p) else None
      | None => None
      end
  end.

Definition plain_encode (payload : pydict) (key algorithm : string) : string :=
  bits_of_pos (encode (payload, key, algorithm)).

Definition plain_decode (token key algorithm : string) : option pydict :=
  match pos_of_bits token with
  | Some p =>
      match decode p with
      | Some (payload, k, a) =>
          if decide (k = key ∧ a = algorithm) then Some payload else None
      | None => None
      end
  | None => None
  end.

Definition plain_crypto : Crypto.
Proof.
  refine {|
    pwd_context_hash := λ salt pw,
      if has_nul pw then Raise ValueError else Ok (pw +:+ "$" +:+ salt);
    pwd_context_verify := λ pw h,
      if has_nul pw then Raise ValueError else Ok (String.prefix pw h);
    jws_encode := plain_encode;
    jws_decode := plain_decode |}.
  - intros salt pw Hnul. by rewrite Hnul.
  - intros pw hashed Hnul. by rewrite Hnul.
  - intros salt pw hashed. destruct (has_nul pw); [done|].
    intros [= <-]. f_equal. clear.
    induction pw as [|c pw IH]; simpl; [done|].
    by destruct (ascii_dec c c).
  - intros payload key alg _. unfold plain_decode, plain_encode.
    assert (∀ p, pos_of_bits (bits_of_pos p) = Some p) as ->.
    { induction p as [p IH|p IH|]; simpl; by rewrite ?IH. }
    rewrite decode_encode. by rewrite decide_True.
Defined.

(** *** Notions used to state further properties of the handlers *)

(** Every stored quantity is an int (a document without the field counts
    as 0 for the dashboard). *)
Definition int_quantities (db : DB) : Prop :=
  ∀ r, Forall (λ s, ∃ z, get_quantity s = VInt z) (coll r db).

(** The rows of one section of the export: none for an empty section,
    otherwise the field names and one row per record. *)
Definition section_rows (fieldnames : list string) (items : list document)
  : list (list value) :=
  match items with
  | [] => []
  | _ :: _ => (VStr <$> fieldnames) :: (row_of fieldnames <$> items)
  end.

(** The [.dict()] of the body of a POST request. *)
Definition request_dict (req : create_request) : pydict :=
  match req with
  | PostSeedlingReceived m => SeedlingReceived.dict m
  | PostDeliveryNote m => DeliveryNote.dict m
  | PostDeadSeedling m => DeadSeedling.dict m
  | PostDiscardedSeedling m => DiscardedSeedling.dict m
  | PostNurseryProduced m => NurseryProduced.dict m
  | PostDistributedSeedling m => DistributedSeedling.dict m
  end.

(** The document that a POST request of [username] stores under [oid]. *)
Definition stored_document (req : create_request) (username : string)
    (oid : ObjectId) : document :=
  Document oid (bson_value <$> <["user_id" := VStr username]> (request_dict req)).

(** The response of a POST request that succeeds: the body as sent, with
    the caller as owner and the generated id as a string. *)
Definition create_response (req : create_request) (username : string)
    (oid : ObjectId) : pydict :=
  <["_id" := VStr (str_of_ObjectId oid)]>
    (<["user_id" := VStr username]> (request_dict req)).

(** The user document that [register] builds. *)
Definition user_document (username hashed_password : string) (created_at : Z)
  : pydict :=
  list_to_map
    [("username", VStr username); ("password", VStr hashed_password);
     ("created_at", VDate created_at)].

(** The body of a successful DELETE. *)
Definition deleted_message : pydict := {["message" := VStr "Deleted successfully"]}.

(** A request body that names bob as the owner. *)
Definition example_post : create_request :=
  PostDeadSeedling (DeadSeedling.Build "2024-05-01" "oak" 3 "bob" (Some 0%Z)).

(** Alice's credentials, and the store after she registered (with the plain
    instance of the contracts). *)
Definition alice : UserRegister := {| username := "alice"; password := "s3cret" |}.

Definition db_alice : DB :=
  (@register plain_crypto alice "salt" (example_id 1) 0 0 empty_db).2.

(** ** Properties of the store operations *)

Lemma user_filter_spec (v : value) (m : pydict) :
  ({["user_id" := v]} : pydict) ⊆ m ↔ m !! "user_id" = Some v.
Proof. apply map_singleton_subseteq_l. Qed.

Lemma id_filter_spec (o : ObjectId) (u : string) (d : document) :
  (<["_id" := VOid o]> {["user_id" := VStr u]} : pydict) ⊆ as_dict d
  ↔ doc_id d = o ∧ as_dict d !! "user_id" = Some (VStr u).
Proof.
  rewrite map_subseteq_spec. split.
  - intros Hsub. split.
    + specialize (Hsub "_id" (VOid o)).
      rewrite lookup_insert_eq in Hsub. specialize (Hsub eq_refl).
      unfold as_dict in Hsub. rewrite lookup_insert_eq in Hsub. congruence.
    + apply Hsub. rewrite lookup_insert_ne by done. apply lookup_singleton_eq.
  - intros [Hid Hu] k v Hk.
    destruct (decide (k = "_id")) as [->|Hne].
    + rewrite lookup_insert_eq in Hk. inversion Hk; subst.
      unfold as_dict. apply lookup_insert_eq.
    + rewrite lookup_insert_ne in Hk by done.
      apply lookup_singleton_Some in Hk as [<- <-]. exact Hu.
Qed.

Lemma as_dict_nonempty (d : document) : as_dict d ≠ ∅.
Proof. unfold as_dict. apply insert_non_empty. Qed.

Lemma elem_of_find (flt : pydict) (c : list document) (d : document) :
  d ∈ find flt c ↔ flt ⊆ as_dict d ∧ d ∈ c.
Proof. unfold find. by rewrite list_elem_of_filter. Qed.

Lemma delete_one_no_match (flt : pydict) (c : list document) :
  Forall (λ d, ¬ flt ⊆ as_dict d) c → delete_one flt c = (c, 0%Z).
Proof.
  induction 1 as [|d c Hd _ IH]; simpl; [done|].
  destruct (decide (flt ⊆ as_dict d)); [done|]. by rewrite IH.
Qed.

Lemma coll_set_coll (r : resource) (c : list document) (db : DB) :
  coll r (set_coll r c db) = c.
Proof. by destruct r. Qed.

Lemma coll_set_coll_ne (r r' : resource) (c : list document) (db : DB) :
  r' ≠ r → coll r' (set_coll r c db) = coll r' db.
Proof. by destruct r, r'. Qed.

Lemma set_coll_coll (r : resource) (db : DB) : set_coll r (coll r db) db = db.
Proof. by destruct r, db. Qed.

Lemma users_set_coll (r : resource) (c : list document) (db : DB) :
  users (set_coll r c db) = users db.
Proof. by destruct r. Qed.

Lemma unique_ids_inj (c : list document) (d1 d2 : document) :
  unique_ids c → d1 ∈ c → d2 ∈ c → doc_id d1 = doc_id d2 → d1 = d2.
Proof.
  unfold unique_ids. induction c as [|d c IH]; intros Hnd H1 H2 Heq.
  - by apply elem_of_nil in H1.
  - rewrite fmap_cons in Hnd. apply NoDup_cons in Hnd as [Hnotin Hnd].
    apply elem_of_cons in H1 as [->|H1]; apply elem_of_cons in H2 as [->|H2].
    + done.
    + exfalso. apply Hnotin. rewrite Heq. by apply list_elem_of_fmap_2.
    + exfalso. apply Hnotin. rewrite <- Heq. by apply list_elem_of_fmap_2.
    + by apply IH.
Qed.

(** [insert_one] either raises OverflowError, or appends the document as
    BSON holds it. *)
Lemma insert_one_cases (oid : ObjectId) (d : pydict) (c : list document) :
  (insert_one oid d c = Raise OverflowError
   ∧ ¬ map_Forall (λ _ v, bson_encodable v = true) d)
  ∨ (insert_one oid d c = Ok (c ++ [Document oid (bson_value <$> d)])%list
     ∧ map_Forall (λ _ v, bson_encodable v = true) d).
Proof.
  unfold insert_one, bson_encode. case_bool_decide; [by right|by left].
Qed.

Lemma unique_ids_snoc (oid : ObjectId) (d : pydict) (c : list document) :
  unique_ids c → oid ∉ doc_id <$> c → unique_ids (c ++ [Document oid d]).
Proof.
  unfold unique_ids. intros Hnd Hfresh.
  rewrite fmap_app. apply NoDup_app. split; [done|]. split.
  - intros o Ho Ho'. apply list_elem_of_singleton in Ho'. by subst.
  - apply NoDup_singleton.
Qed.

(** A fresh generated id keeps the ids of a collection unique. *)
Lemma unique_ids_insert_one (oid : ObjectId) (d : pydict)
    (c c' : list document) :
  unique_ids c → oid ∉ doc_id <$> c → insert_one oid d c = Ok c' →
  unique_ids c'.
Proof.
  intros Hnd Hfresh Hins.
  destruct (insert_one_cases oid d c) as [[Hr _]|[Hok _]]; [congruence|].
  rewrite Hok in Hins. injection Hins as <-. by apply unique_ids_snoc.
Qed.

(** The six create handlers are [create_record] at their resource. *)
Lemma post_create_record (req : create_request) (username : string)
    (oid : ObjectId) (db : DB) :
  post req username oid db
  = create_record (resource_of req) (request_dict req) username oid db.
Proof. by destruct req. Qed.

(** The two outcomes of a POST request: the encoding of the document fails
    (some int of the body does not fit in 64 bits) and nothing is stored,
    or the document is appended as BSON holds it and the response is the
    body as sent. *)
Lemma post_cases (req : create_request) (username : string) (oid : ObjectId)
    (db : DB) :
  (post req username oid db = (Raise OverflowError, db)
   ∧ ¬ map_Forall (λ _ v, bson_encodable v = true)
         (<["user_id" := VStr username]> (request_dict req)))
  ∨ (post req username oid db
     = (Ok (create_response req username oid),
        set_coll (resource_of req)
          (coll (resource_of req) db ++ [stored_document req username oid]) db)
     ∧ map_Forall (λ _ v, bson_encodable v = true)
         (<["user_id" := VStr username]> (request_dict req))).
Proof.
  rewrite post_create_record. unfold create_record.
  destruct (insert_one_cases oid
              (<["user_id" := VStr username]> (request_dict req))
              (coll (resource_of req) db)) as [[-> Hno]|[-> Hyes]].
  - by left.
  - right. split; [|done]. unfold create_response. by rewrite insert_insert_eq.
Qed.

Lemma stored_document_user_id (req : create_request) (username : string)
    (oid : ObjectId) :
  as_dict (stored_document req username oid) !! "user_id" = Some (VStr username).
Proof.
  unfold stored_document, as_dict. cbn [fields doc_id].
  rewrite lookup_insert_ne by done.
  by rewrite lookup_fmap, lookup_insert_eq.
Qed.

Lemma create_response_user_id (req : create_request) (username : string)
    (oid : ObjectId) :
  create_response req username oid !! "user_id" = Some (VStr username).
Proof.
  unfold create_response. rewrite lookup_insert_ne by done.
  apply lookup_insert_eq.
Qed.

Lemma stringify_id_lookup_ne (s : document) (k : string) :
  k ≠ "_id" → stringify_id s !! k = as_dict s !! k.
Proof. intros Hk. unfold stringify_id. by rewrite lookup_insert_ne. Qed.

Lemma sort_created_desc_perm (c : list document) : sort_created_desc c ≡ₚ c.
Proof. apply merge_sort_Permutation. Qed.

(** What a listing returns: the printed form of documents that the owner's
    query selects. *)
Lemma list_records_elem (r : resource) (u : string) (db : DB) (docs : list pydict)
    (d : pydict) :
  list_records r u db = Ok docs → d ∈ docs →
  ∃ s, d = stringify_id s ∧ s ∈ owned_by u (coll r db).
Proof.
  unfold list_records, to_list. intros [= <-] Hd.
  apply list_elem_of_fmap in Hd as (s & -> & Hs).
  exists s. split; [done|].
  apply elem_of_take in Hs as (i & Hi & _).
  apply list_elem_of_lookup_2 in Hi.
  by rewrite sort_created_desc_perm in Hi.
Qed.

Lemma owned_by_user_id (u : string) (c : list document) (s : document) :
  s ∈ owned_by u c → as_dict s !! "user_id" = Some (VStr u) ∧ s ∈ c.
Proof.
  unfold owned_by. rewrite elem_of_find, user_filter_spec. tauto.
Qed.

(** ** Owner scoping of the record endpoints *)

(** C2: for owners A ≠ B, a listing requested by A contains only records of
    A, hence none of B; and when A asks to delete a record of B by its id,
    the answer is 404 "Item not found" and the store, B's record included,
    is left as it was.  Ids are unique within the collection, as MongoDB
    guarantees. *)
Theorem owner_isolation (r : resource) (db : DB) (A B : string) :
  A ≠ B →
  (∃ docs, list_records r A db = Ok docs ∧
     ∀ d, d ∈ docs →
       d !! "user_id" = Some (VStr A) ∧ d !! "user_id" ≠ Some (VStr B))
  ∧ (∀ (rec : document) (id : string),
       unique_ids (coll r db) →
       rec ∈ coll r db →
       as_dict rec !! "user_id" = Some (VStr B) →
       ObjectId_of_str id = Ok (doc_id rec) →
       delete_record r id A db
         = (Raise (HTTPException 404 "Item not found"), db)
       ∧ status_of (delete_record r id A db).1 = 404%Z
       ∧ rec ∈ coll r (delete_record r id A db).2).
Proof.
  intros HAB. split.
  - eexists. split; [reflexivity|]. intros d Hd.
    destruct (list_records_elem r A db _ d eq_refl Hd) as (s & -> & Hs).
    apply owned_by_user_id in Hs as [Hu _].
    rewrite stringify_id_lookup_ne by done. rewrite Hu.
    split; [done|]. intros [=]. by apply HAB.
  - intros rec id Huniq Hrec HB Hid.
    assert (delete_record r id A db
            = (Raise (HTTPException 404 "Item not found"), db)) as Hdel.
    { unfold delete_record. rewrite Hid.
      rewrite delete_one_no_match.
      - simpl. by rewrite set_coll_coll.
      - apply Forall_forall. intros d Hd [Hdid Hdu]%id_filter_spec.
        assert (d = rec) as -> by (by apply (unique_ids_inj (coll r db))).
        rewrite HB in Hdu. injection Hdu as ->. by apply HAB. }
    rewrite Hdel. by repeat split.
Qed.

(** C10: there are ids for which a delete request is not answered by 404:
    when the path parameter is not accepted by [ObjectId(...)], the
    conversion raises [InvalidId] before any query is made, whatever the
    store contains; nothing handles it, so the client gets status 500, and
    the store is not touched. *)
Theorem delete_malformed_id_server_error :
  (∃ id, ObjectId_of_str id = Raise InvalidId)
  ∧ ∀ (r : resource) (id username : string) (db : DB),
      ObjectId_of_str id = Raise InvalidId →
      delete_record r id username db = (Raise InvalidId, db)
      ∧ status_of (delete_record r id username db).1 = 500%Z
      ∧ (delete_record r id username db).1
          ≠ Raise (HTTPException 404 "Item not found")
      ∧ ∀ db', (delete_record r id username db').1
               = (delete_record r id username db).1.
Proof.
  split.
  - exists "abc". reflexivity.
  - intros r id username db Hid. unfold delete_record. rewrite Hid. simpl.
    repeat split; done.
Qed.

(** Every id of another length is malformed. *)
Lemma ObjectId_of_str_length (id : string) :
  String.length id ≠ 24 → ObjectId_of_str id = Raise InvalidId.
Proof.
  intros Hlen. unfold ObjectId_of_str.
  destruct (Nat.eqb_spec (String.length id) 24); [done|reflexivity].
Qed.

(** C9: whatever POST request is made to one of the six resources, and
    whatever [user_id] its body carries, a document that the request stores
    is owned by the authenticated caller ([username]): every document of the
    collection afterwards was there before or has the caller as owner, so no
    record of another user is ever created.  No other collection and no user
    changes.  When the handler returns, exactly one document was appended,
    under the generated id and owned by the caller, and the response reports
    the same owner; when it raises (the document cannot be encoded), the
    store is unchanged. *)
Theorem create_stamps_caller (req : create_request) (username : string)
    (oid : ObjectId) (db : DB) :
  (∀ s, s ∈ coll (resource_of req) (post req username oid db).2 →
        s ∈ coll (resource_of req) db
        ∨ as_dict s !! "user_id" = Some (VStr username))
  ∧ (∀ r, r ≠ resource_of req →
       coll r (post req username oid db).2 = coll r db)
  ∧ users (post req username oid db).2 = users db
  ∧ (∀ response, (post req username oid db).1 = Ok response →
       ∃ stored : document,
         coll (resource_of req) (post req username oid db).2
         = (coll (resource_of req) db ++ [stored])%list
         ∧ doc_id stored = oid
         ∧ as_dict stored !! "user_id" = Some (VStr username)
         ∧ response !! "user_id" = Some (VStr username))
  ∧ (∀ e, (post req username oid db).1 = Raise e →
       (post req username oid db).2 = db).
Proof.
  destruct (post_cases req username oid db) as [[-> _]|[-> _]];
    cbn [fst snd].
  - split; [by left|]. split; [done|]. split; [done|]. split; done.
  - rewrite coll_set_coll. split.
    { intros s [Hs|Hs%list_elem_of_singleton]%elem_of_app; [by left|].
      right. subst s. apply stored_document_user_id. }
    split; [intros r Hr; by apply coll_set_coll_ne|].
    split; [apply users_set_coll|]. split; [|done].
    intros response [= <-]. exists (stored_document req username oid).
    split; [done|]. split; [done|].
    split; [apply stored_document_user_id|apply create_response_user_id].
Qed.

(** A body that names another user: the stored record is the caller's. *)
Example post_ignores_client_user_id :
  let req := PostDeadSeedling
               (DeadSeedling.Build "2024-05-01" "oak" 3 "bob" (Some 0%Z)) in
  client_user_id req = "bob"
  ∧ (as_dict <$> dead_seedlings (post req "alice" (example_id 9) empty_db).2)
      !! 0%nat
    = Some (list_to_map
              [("_id", VOid (example_id 9)); ("date", VStr "2024-05-01");
               ("type", VStr "oak"); ("quantity", VInt 3);
               ("user_id", VStr "alice"); ("created_at", VDate 0)]).
Proof. split; vm_compute; reflexivity. Qed.

(** A quantity that does not fit in 64 bits: the request fails and nothing
    is stored.  A creation time with microseconds: the response has it as
    sent, the stored document in whole milliseconds. *)
Example post_bson_limits :
  post (PostDeadSeedling
          (DeadSeedling.Build "2024-05-01" "oak" (2 ^ 63) "bob" (Some 0%Z)))
    "alice" (example_id 9) empty_db
  = (Raise OverflowError, empty_db)
  ∧ (let req := PostDeadSeedling
                  (DeadSeedling.Build "2024-05-01" "oak" 3 "bob"
                     (Some 1714557600123456%Z)) in
     stat "created_at" (post req "alice" (example_id 9) empty_db).1
     = Some (VDate 1714557600123456)
     ∧ (as_dict <$> dead_seedlings (post req "alice" (example_id 9) empty_db).2)
         !! 0%nat ≫= (.!! "created_at")
       = Some (VDate 1714557600123000)).
Proof. repeat split; vm_compute; reflexivity. Qed.

(** [create_stamps_caller] for a body that names bob, sent by alice. *)
Lemma create_stamps_caller_witness :
  (post example_post "alice" (example_id 9) db_example).1
  = Ok (create_response example_post "alice" (example_id 9))
  ∧ ∃ stored : document,
      coll (resource_of example_post)
        (post example_post "alice" (example_id 9) db_example).2
      = (coll (resource_of example_post) db_example ++ [stored])%list
      ∧ doc_id stored = example_id 9
      ∧ as_dict stored !! "user_id" = Some (VStr "alice")
      ∧ create_response example_post "alice" (example_id 9) !! "user_id"
        = Some (VStr "alice").
Proof.
  assert ((post example_post "alice" (example_id 9) db_example).1
          = Ok (create_response example_post "alice" (example_id 9))) as Hok.
  { vm_compute. reflexivity. }
  split; [exact Hok|].
  destruct (create_stamps_caller example_post "alice" (example_id 9) db_example)
    as (_ & _ & _ & Hsuccess & _).
  exact (Hsuccess _ Hok).
Defined.

(** Every document that a POST request stores has an int quantity or none:
    the dashboard never meets another kind of value in a store that was
    filled through the API. *)
Lemma post_stores_int_quantity (req : create_request) (username : string)
    (oid : ObjectId) (db : DB) (s : document) :
  s ∈ coll (resource_of req) (post req username oid db).2 →
  s ∈ coll (resource_of req) db ∨ ∃ z, get_quantity s = VInt z.
Proof.
  destruct (post_cases req username oid db) as [[-> _]|[-> _]];
    cbn [fst snd]; [by left|].
  rewrite coll_set_coll.
  intros [Hs|Hs%list_elem_of_singleton]%elem_of_app; [by left|].
  right. subst s. destruct req; eexists; reflexivity.
Qed.

(** [owner_isolation] on a store with a record of bob: alice's request to
    delete it is answered by 404 and the record stays. *)
Lemma owner_isolation_witness :
  "alice" ≠ "bob"
  ∧ delete_record SeedlingsReceived "000000000000000000000007" "alice"
      db_two_owners
    = (Raise (HTTPException 404 "Item not found"), db_two_owners)
  ∧ quantity_record 7 "bob" 4 ∈ seedlings_received db_two_owners.
Proof.
  split; [done|].
  destruct (owner_isolation SeedlingsReceived db_two_owners "alice" "bob")
    as [_ Hdel]; [done|].
  destruct (Hdel (quantity_record 7 "bob" 4) "000000000000000000000007")
    as (Hres & _ & Hkept).
  - unfold unique_ids. apply (bool_decide_unpack _). vm_compute. exact I.
  - simpl. apply list_elem_of_here.
  - vm_compute. reflexivity.
  - vm_compute. reflexivity.
  - split; [exact Hres|]. simpl. apply list_elem_of_here.
Defined.

(** [delete_malformed_id_server_error] for an id that is no ObjectId. *)
Lemma delete_malformed_id_witness :
  ObjectId_of_str "not-an-object-id" = Raise InvalidId
  ∧ delete_record DeadSeedlings "not-an-object-id" "alice" db_two_owners
    = (Raise InvalidId, db_two_owners).
Proof.
  split; [reflexivity|].
  destruct delete_malformed_id_server_error as [_ Hall].
  apply (Hall DeadSeedlings "not-an-object-id" "alice" db_two_owners).
  reflexivity.
Defined.

(** ** Listing: the cap and the order *)

Lemma key_le_trans (a b c : option Z) : key_le a b → key_le b c → key_le a c.
Proof. destruct a, b, c; simpl; try done. lia. Qed.

Lemma key_le_total (a b : option Z) : key_le a b ∨ key_le b a.
Proof. destruct a, b; simpl; try tauto. lia. Qed.

Lemma doc_newer_first_trans :
  Transitive (λ d1 d2 : document, newer_first (as_dict d1) (as_dict d2)).
Proof. intros x y z Hxy Hyz. unfold newer_first in *. by eapply key_le_trans. Qed.

Lemma doc_newer_first_total :
  Total (λ d1 d2 : document, newer_first (as_dict d1) (as_dict d2)).
Proof. intros x y. unfold newer_first. apply key_le_total. Qed.

Lemma created_key_stringify_id (s : document) :
  created_key (stringify_id s) = created_key (as_dict s).
Proof. unfold created_key. by rewrite stringify_id_lookup_ne. Qed.

(** [newer_first] on two documents that carry datetimes compares them. *)
Lemma newer_first_dates (d1 d2 : pydict) (t1 t2 : Z) :
  d1 !! "created_at" = Some (VDate t1) → d2 !! "created_at" = Some (VDate t2) →
  newer_first d1 d2 ↔ (t2 ≤ t1)%Z.
Proof. intros H1 H2. unfold newer_first, created_key. by rewrite H1, H2. Qed.

Lemma sort_created_desc_sorted (c : list document) :
  StronglySorted (λ d1 d2, newer_first (as_dict d1) (as_dict d2))
    (sort_created_desc c).
Proof.
  apply StronglySorted_merge_sort;
    [apply doc_newer_first_trans | apply doc_newer_first_total].
Qed.

Lemma StronglySorted_lookup {A} (R : relation A) (l : list A) (i j : nat)
    (x y : A) :
  StronglySorted R l → (i < j)%nat → l !! i = Some x → l !! j = Some y → R x y.
Proof.
  intros Hsorted Hij Hi Hj.
  rewrite <- (take_drop j l) in Hsorted.
  apply (StronglySorted_app_1_elem_of _ _ _ _ _ Hsorted).
  - apply elem_of_take. eauto.
  - apply list_elem_of_lookup. exists 0. by rewrite lookup_drop, Nat.add_0_r.
Qed.

(** C7: a listing always succeeds and returns at most 1000 records, also when
    the owner has more (it returns min(1000, number owned)); the records
    returned are in newest-first order of [created_at]: no record stands
    before one with a later creation time; they are the first 1000 of all
    the owner's records in that order, so whatever is left out is no newer
    than anything returned. *)
Theorem list_capped_newest_first (r : resource) (u : string) (db : DB) :
  ∃ (docs : list pydict) (kept rest : list document),
    list_records r u db = Ok docs
    ∧ docs = stringify_id <$> kept
    ∧ (kept ++ rest)%list ≡ₚ owned_by u (coll r db)
    ∧ length docs = Nat.min 1000 (length (owned_by u (coll r db)))
    ∧ (length docs ≤ 1000)%nat
    ∧ StronglySorted newer_first docs
    ∧ (∀ i j di dj ti tj,
         (i < j)%nat → docs !! i = Some di → docs !! j = Some dj →
         di !! "created_at" = Some (VDate ti) →
         dj !! "created_at" = Some (VDate tj) →
         (tj ≤ ti)%Z)
    ∧ (∀ s d, s ∈ rest → d ∈ docs → newer_first d (as_dict s)).
Proof.
  set (sorted := sort_created_desc (owned_by u (coll r db))).
  exists (stringify_id <$> take 1000 sorted), (take 1000 sorted), (drop 1000 sorted).
  pose proof (sort_created_desc_sorted (owned_by u (coll r db))) as Hsorted.
  fold sorted in Hsorted. rewrite <- (take_drop 1000 sorted) in Hsorted.
  assert (length (stringify_id <$> take 1000 sorted)
          = Nat.min 1000 (length (owned_by u (coll r db)))) as Hlen.
  { rewrite length_fmap, length_take. unfold sorted.
    by rewrite (Permutation_length (sort_created_desc_perm _)). }
  split; [reflexivity|]. split; [reflexivity|]. split.
  { rewrite take_drop. apply sort_created_desc_perm. }
  assert (StronglySorted newer_first (stringify_id <$> take 1000 sorted))
    as Hdocs.
  { apply (StronglySorted_fmap stringify_id
             (λ d1 d2, newer_first (as_dict d1) (as_dict d2))).
    - intros x y Hxy. unfold newer_first in *.
      by rewrite !created_key_stringify_id.
    - by apply StronglySorted_app_1_l in Hsorted. }
  split; [exact Hlen|]. split; [rewrite Hlen; lia|]. split; [exact Hdocs|].
  split.
  - intros i j di dj ti tj Hij Hi Hj Hti Htj.
    apply (newer_first_dates di dj ti tj Hti Htj).
    by apply (StronglySorted_lookup newer_first _ i j di dj Hdocs).
  - intros s d Hs Hd. apply list_elem_of_fmap in Hd as (k & -> & Hk).
    unfold newer_first. rewrite created_key_stringify_id.
    by apply (StronglySorted_app_1_elem_of _ _ _ _ _ Hsorted).
Qed.

(** ** Registration and login *)

Lemma find_app (flt : pydict) (c1 c2 : list document) :
  find flt (c1 ++ c2) = (find flt c1 ++ find flt c2)%list.
Proof. unfold find. apply filter_app. Qed.

Lemma truthy_find_one (flt : pydict) (c : list document) :
  truthy (find_one flt c) = false ↔ find_one flt c = None.
Proof.
  unfold truthy. destruct (find_one flt c) as [d|]; [|done].
  rewrite bool_decide_eq_false_2 by apply as_dict_nonempty. done.
Qed.

Lemma find_one_None (flt : pydict) (c : list document) :
  find_one flt c = None ↔ find flt c = [].
Proof. unfold find_one. by destruct (find flt c). Qed.

Lemma response_model_token (access_token username : string) :
  response_model Token_fields (token_response access_token username)
  = Ok (token_response access_token username).
Proof. reflexivity. Qed.

Lemma user_document_encodable (u h : string) (t : Z) :
  map_Forall (λ _ v, bson_encodable v = true) (user_document u h t).
Proof.
  unfold user_document. rewrite !list_to_map_cons, list_to_map_nil.
  repeat (apply map_Forall_insert_2; [done|]). apply map_Forall_empty.
Qed.

(** The user document has no int, so storing it cannot fail; its creation
    time is stored in whole milliseconds. *)
Lemma insert_one_user_document (oid : ObjectId) (u h : string) (t : Z)
    (c : list document) :
  insert_one oid (user_document u h t) c
  = Ok (c ++ [Document oid (user_document u h (t `div` 1000 * 1000))])%list.
Proof.
  destruct (insert_one_cases oid (user_document u h t) c)
    as [[_ Hno]|[-> _]].
  - exfalso. apply Hno, user_document_encodable.
  - assert (bson_value <$> user_document u h t
            = user_document u h (t `div` 1000 * 1000)) as ->; [|done].
    unfold user_document. rewrite !list_to_map_cons, !list_to_map_nil.
    by rewrite !fmap_insert, fmap_empty.
Qed.

Section auth_properties.
Context `{Crypto}.

(** [register] for a free username and a password that the hash accepts:
    the response and the store it leaves. *)
Lemma register_fresh (user : UserRegister) (salt hashed : string)
    (oid : ObjectId) (now_doc now_token : Z) (db : DB) :
  find_one {["username" := VStr (username user)]} (users db) = None →
  get_password_hash salt (password user) = Ok hashed →
  register user salt oid now_doc now_token db
  = (Ok (token_response
           (create_access_token {["sub" := VStr (username user)]} now_token)
           (username user)),
     set_users
       (users db
        ++ [Document oid
              (user_document (username user) hashed
                 (now_doc `div` 1000 * 1000))]) db).
Proof.
  intros Hfree Hhash. unfold register.
  rewrite (proj2 (truthy_find_one _ _) Hfree), Hhash.
  change (list_to_map
            [("username", VStr (username user)); ("password", VStr hashed);
             ("created_at", VDate now_doc)])
    with (user_document (username user) hashed now_doc).
  rewrite insert_one_user_document. by rewrite response_model_token.
Qed.

(** A password that the hash refuses: the exception ends the request and
    nothing is stored. *)
Lemma register_hash_raises (user : UserRegister) (salt : string)
    (oid : ObjectId) (now_doc now_token : Z) (db : DB) (e : exn) :
  find_one {["username" := VStr (username user)]} (users db) = None →
  get_password_hash salt (password user) = Raise e →
  register user salt oid now_doc now_token db = (Raise e, db).
Proof.
  intros Hfree Hhash. unfold register.
  by rewrite (proj2 (truthy_find_one _ _) Hfree), Hhash.
Qed.

(** So it is for a password with a NUL byte. *)
Lemma register_refuses_nul_password (user : UserRegister) (salt : string)
    (oid : ObjectId) (now_doc now_token : Z) (db : DB) :
  find_one {["username" := VStr (username user)]} (users db) = None →
  has_nul (password user) = true →
  register user salt oid now_doc now_token db = (Raise ValueError, db)
  ∧ status_of (register user salt oid now_doc now_token db).1 = 500%Z.
Proof.
  intros Hfree Hnul.
  rewrite (register_hash_raises user salt oid now_doc now_token db ValueError);
    [done|done|]. by apply pwd_context_hash_nul.
Qed.

Lemma register_taken (user : UserRegister) (salt : string) (oid : ObjectId)
    (now_doc now_token : Z) (db : DB) :
  find_one {["username" := VStr (username user)]} (users db) ≠ None →
  register user salt oid now_doc now_token db
  = (Raise (HTTPException 400 "Username already exists"), db).
Proof.
  intros Htaken. unfold register.
  destruct (truthy _) eqn:Ht; [done|].
  by apply truthy_find_one in Ht.
Qed.

Lemma find_one_registered (u : string) (c : list document) (oid : ObjectId)
    (user_doc : pydict) :
  find_one {["username" := VStr u]} c = None →
  user_doc !! "username" = Some (VStr u) →
  user_doc !! "_id" = None →
  find_one {["username" := VStr u]} (c ++ [Document oid user_doc])
  = Some (Document oid user_doc).
Proof.
  intros Hfree%find_one_None Hu Hid. unfold find_one.
  rewrite find_app, Hfree. simpl. unfold find.
  rewrite filter_cons_True; [done|].
  apply map_singleton_subseteq_l. unfold as_dict. simpl.
  by rewrite lookup_insert_ne.
Qed.

(** After a registration that succeeded, the user is found. *)
Lemma find_one_after_register (user : UserRegister) (salt hashed : string)
    (oid : ObjectId) (now_doc now_token : Z) (db : DB) :
  find_one {["username" := VStr (username user)]} (users db) = None →
  get_password_hash salt (password user) = Ok hashed →
  find_one {["username" := VStr (username user)]}
    (users (register user salt oid now_doc now_token db).2)
  = Some (Document oid
            (user_document (username user) hashed (now_doc `div` 1000 * 1000))).
Proof.
  intros Hfree Hhash.
  rewrite (register_fresh user salt hashed oid now_doc now_token db Hfree Hhash).
  cbn [snd users set_users]. by apply find_one_registered.
Qed.

(** The outcomes of [register]: 400 for a taken username, the exception of
    the hash, or success. *)
Lemma register_cases (user : UserRegister) (salt : string) (oid : ObjectId)
    (now_doc now_token : Z) (db : DB) :
  (find_one {["username" := VStr (username user)]} (users db) ≠ None
   ∧ register user salt oid now_doc now_token db
     = (Raise (HTTPException 400 "Username already exists"), db))
  ∨ (find_one {["username" := VStr (username user)]} (users db) = None
     ∧ ∃ e, get_password_hash salt (password user) = Raise e
          ∧ register user salt oid now_doc now_token db = (Raise e, db))
  ∨ (find_one {["username" := VStr (username user)]} (users db) = None
     ∧ ∃ hashed, get_password_hash salt (password user) = Ok hashed
          ∧ register user salt oid now_doc now_token db
            = (Ok (token_response
                     (create_access_token {["sub" := VStr (username user)]}
                        now_token)
                     (username user)),
               set_users
                 (users db
                  ++ [Document oid
                        (user_document (username user) hashed
                           (now_doc `div` 1000 * 1000))]) db)).
Proof.
  destruct (find_one {["username" := VStr (username user)]} (users db))
    as [d|] eqn:Hfind.
  - left. split; [done|]. apply register_taken. by rewrite Hfind.
  - right. destruct (get_password_hash salt (password user))
      as [hashed|e] eqn:Hhash.
    + right. split; [done|]. exists hashed. split; [done|].
      by apply register_fresh.
    + left. split; [done|]. exists e. split; [done|].
      by apply register_hash_raises.
Qed.

(** C6: when [register] is called twice with the same username and the
    first call registered the user, the second call raises HTTP 400
    "Username already exists" and leaves the store, in particular the
    users, exactly as the first call left it: no second user document is
    created. *)
Theorem register_twice_duplicate (u pw1 pw2 salt1 salt2 : string)
    (oid1 oid2 : ObjectId) (t1 t1' t2 t2' : Z) (db : DB)
    (registered : pydict) :
  (register {| username := u; password := pw1 |} salt1 oid1 t1 t1' db).1
  = Ok registered →
  let db1 := (register {| username := u; password := pw1 |}
                salt1 oid1 t1 t1' db).2 in
  register {| username := u; password := pw2 |} salt2 oid2 t2 t2' db1
  = (Raise (HTTPException 400 "Username already exists"), db1)
  ∧ status_of (register {| username := u; password := pw2 |}
                 salt2 oid2 t2 t2' db1).1 = 400%Z
  ∧ users (register {| username := u; password := pw2 |}
             salt2 oid2 t2 t2' db1).2 = users db1.
Proof.
  intros Hfirst db1.
  assert (register {| username := u; password := pw2 |} salt2 oid2 t2 t2' db1
          = (Raise (HTTPException 400 "Username already exists"), db1)) as Hsecond.
  { apply register_taken. cbn [username]. subst db1.
    destruct (register_cases {| username := u; password := pw1 |}
                salt1 oid1 t1 t1' db)
      as [[_ Hreg]|[[_ (e & _ & Hreg)]|[Hfree (hashed & Hhash & _)]]].
    - rewrite Hreg in Hfirst. discriminate Hfirst.
    - rewrite Hreg in Hfirst. discriminate Hfirst.
    - pose proof (find_one_after_register
                    {| username := u; password := pw1 |} salt1 hashed
                    oid1 t1 t1' db Hfree Hhash) as Hfound.
      cbn [username] in Hfound. by rewrite Hfound. }
  rewrite Hsecond. done.
Qed.

(** A token issued for a username is accepted until it expires, and names
    that username. *)
Lemma get_current_user_issued (u : string) (now_issue now_check : Z) :
  (now_check < expires_at now_issue)%Z →
  get_current_user (create_access_token {["sub" := VStr u]} now_issue) now_check
  = Ok u.
Proof.
  intros Hvalid.
  unfold get_current_user, jwt_decode, create_access_token, jwt_encode.
  rewrite lookup_insert_eq, insert_insert_eq.
  rewrite jws_decode_encode.
  - rewrite lookup_insert_eq.
    unfold expires_at in Hvalid.
    destruct (Z.leb_spec
                ((now_issue + timedelta_days 30) `div` microseconds * microseconds)
                now_check) as [Hle|_]; [lia|].
    rewrite lookup_insert_ne by done. by rewrite lookup_singleton_eq.
  - apply map_Forall_insert_2; [done|]. by apply map_Forall_singleton.
Qed.

(** After it has expired, the same token is refused with 401. *)
Lemma get_current_user_expired (u : string) (now_issue now_check : Z) :
  (expires_at now_issue ≤ now_check)%Z →
  get_current_user (create_access_token {["sub" := VStr u]} now_issue) now_check
  = Raise (HTTPException 401 "Token expired").
Proof.
  intros Hexpired.
  unfold get_current_user, jwt_decode, create_access_token, jwt_encode.
  rewrite lookup_insert_eq, insert_insert_eq.
  rewrite jws_decode_encode.
  - rewrite lookup_insert_eq.
    unfold expires_at in Hexpired.
    destruct (Z.leb_spec
                ((now_issue + timedelta_days 30) `div` microseconds * microseconds)
                now_check) as [_|Hlt]; [done|lia].
  - apply map_Forall_insert_2; [done|]. by apply map_Forall_singleton.
Qed.

(** [login] for a stored user whose hash verifies the password. *)
Lemma login_verified (user : UserLogin) (now : Z) (db : DB) (d : document)
    (hashed : string) :
  find_one {["username" := VStr (username user)]} (users db) = Some d →
  as_dict d !! "password" = Some (VStr hashed) →
  verify_password (password user) hashed = Ok true →
  login user now db
  = Ok (token_response
          (create_access_token {["sub" := VStr (username user)]} now)
          (username user)).
Proof.
  intros Hd Hpw Hverify. unfold login. rewrite Hd.
  unfold truthy. rewrite bool_decide_eq_false_2 by apply as_dict_nonempty.
  cbn [negb]. rewrite Hpw, Hverify. apply response_model_token.
Qed.

Lemma login_after_register (user : UserRegister) (salt hashed : string)
    (oid : ObjectId) (t_doc t_token now : Z) (db : DB) :
  find_one {["username" := VStr (username user)]} (users db) = None →
  get_password_hash salt (password user) = Ok hashed →
  login user now (register user salt oid t_doc t_token db).2
  = Ok (token_response
          (create_access_token {["sub" := VStr (username user)]} now)
          (username user)).
Proof.
  intros Hfree Hhash.
  eapply (login_verified user now _ _ hashed).
  - by apply (find_one_after_register user salt hashed).
  - reflexivity.
  - by apply (pwd_context_verify_hash salt).
Qed.

(** C5: for a valid pair, that is a username that is not registered yet and
    a password that the password hash accepts, [register] succeeds; a
    following [login] with the same pair succeeds and returns a token; and
    the bearer-token check, made before that token expires, returns exactly
    that username. *)
Theorem register_login_verify (user : UserRegister) (salt hashed : string)
    (oid : ObjectId) (t_doc t_register t_login t_check : Z) (db : DB) :
  find_one {["username" := VStr (username user)]} (users db) = None →
  get_password_hash salt (password user) = Ok hashed →
  (t_check < expires_at t_login)%Z →
  ∃ (registered logged_in : pydict) (token : string),
    (register user salt oid t_doc t_register db).1 = Ok registered
    ∧ login user t_login (register user salt oid t_doc t_register db).2
      = Ok logged_in
    ∧ logged_in !! "access_token" = Some (VStr token)
    ∧ logged_in !! "username" = Some (VStr (username user))
    ∧ get_current_user token t_check = Ok (username user).
Proof.
  intros Hfree Hhash Hvalid.
  eexists _, _, (create_access_token {["sub" := VStr (username user)]} t_login).
  split.
  { by rewrite (register_fresh user salt hashed oid t_doc t_register db). }
  split.
  { by apply (login_after_register user salt hashed). }
  split; [reflexivity|]. split; [reflexivity|].
  by apply get_current_user_issued.
Qed.

End auth_properties.

(** [register_login_verify] with the plain instance of the contracts: alice
    registers on the empty store, logs in two seconds later, and her token
    is checked three seconds after that. *)
Lemma register_login_verify_witness :
  ∃ (logged_in : pydict) (token : string),
    @login plain_crypto {| username := "alice"; password := "s3cret" |} 2000000
      (@register plain_crypto {| username := "alice"; password := "s3cret" |}
         "salt" (Oid []) 0 0 empty_db).2
    = Ok logged_in
    ∧ logged_in !! "access_token" = Some (VStr token)
    ∧ @get_current_user plain_crypto token 5000000 = Ok "alice".
Proof.
  destruct (@register_login_verify plain_crypto
              {| username := "alice"; password := "s3cret" |}
              "salt" "s3cret$salt" (Oid []) 0 0 2000000 5000000 empty_db)
    as (registered & logged_in & token & _ & Hlogin & Htok & _ & Hcheck).
  - reflexivity.
  - reflexivity.
  - vm_compute. reflexivity.
  - exists logged_in, token. by repeat split.
Defined.

(** [register_twice_duplicate]: alice registers on the empty store; a second
    registration of her name, with another password, is refused. *)
Lemma register_twice_duplicate_witness :
  (@register plain_crypto alice "salt" (example_id 1) 0 0 empty_db).1
  = Ok (token_response
          (@create_access_token plain_crypto {["sub" := VStr "alice"]} 0)
          "alice")
  ∧ @register plain_crypto {| username := "alice"; password := "guess" |}
      "pepper" (example_id 2) 5 5 db_alice
    = (Raise (HTTPException 400 "Username already exists"), db_alice).
Proof.
  assert ((@register plain_crypto alice "salt" (example_id 1) 0 0 empty_db).1
          = Ok (token_response
                  (@create_access_token plain_crypto
                     {["sub" := VStr "alice"]} 0) "alice")) as Hfirst.
  { rewrite (@register_fresh plain_crypto alice "salt" "s3cret$salt");
      reflexivity. }
  split; [exact Hfirst|].
  exact (proj1 (@register_twice_duplicate plain_crypto "alice" "s3cret" "guess"
                  "salt" "pepper" (example_id 1) (example_id 2) 0 0 5 5
                  empty_db _ Hfirst)).
Defined.

(** ** Dashboard statistics *)

Lemma py_sum_from_ints (acc : Z) (zs : list Z) :
  py_sum_from acc (VInt <$> zs) = Ok (acc + sum_Z zs)%Z.
Proof.
  revert acc. induction zs as [|z zs IH]; intros acc; simpl.
  - f_equal. lia.
  - rewrite IH. f_equal. lia.
Qed.

Lemma py_sum_ints (zs : list Z) : py_sum (VInt <$> zs) = Ok (sum_Z zs).
Proof. unfold py_sum. by rewrite py_sum_from_ints. Qed.

Lemma py_sum_from_raises (acc : Z) (vs : list value) (e : exn) :
  py_sum_from acc vs = Raise e → e = TypeError.
Proof.
  revert acc. induction vs as [|v vs IH]; intros acc; simpl; [done|].
  destruct v; try (by intros [= <-]). apply IH.
Qed.

(** The guard of the division: without a positive input no division is
    made and the rate is the int 0. *)
Lemma survival_rate_of_no_input (n t : Z) :
  (t ≤ 0)%Z → survival_rate_of n t = Ok (VInt 0).
Proof.
  intros Ht. unfold survival_rate_of.
  by destruct (Z.ltb_spec 0 t) as [?|_]; [lia|].
Qed.

Lemma survival_rate_of_positive (n t : Z) :
  (0 < t)%Z →
  survival_rate_of n t
  = q ← int_truediv n t; Ok (VFloat (float_mul_int q 100)).
Proof.
  intros Ht. unfold survival_rate_of.
  by destruct (Z.ltb_spec 0 t) as [_|?]; [|lia].
Qed.

Lemma survival_rate_of_no_zero_division (n t : Z) :
  survival_rate_of n t ≠ Raise ZeroDivisionError.
Proof.
  unfold survival_rate_of, int_truediv.
  destruct (Z.ltb_spec 0 t) as [Ht|_]; [|done].
  destruct (Z.eqb_spec t 0) as [?|_]; [lia|].
  by destruct (SFdiv _ _ _ _).
Qed.

(** The handler on given quantities: what it returns when the quantity
    fields of the records it reads are the ints [rs], [ds], [xs], [ps]. *)
Lemma get_dashboard_stats_quantities (u : string) (db : DB) (rs ds xs ps : list Z) :
  get_quantity <$> take 1000 (owned_by u (seedlings_received db)) = VInt <$> rs →
  get_quantity <$> take 1000 (owned_by u (dead_seedlings db)) = VInt <$> ds →
  get_quantity <$> take 1000 (owned_by u (discarded_seedlings db)) = VInt <$> xs →
  get_quantity <$> take 1000 (owned_by u (nursery_produced db)) = VInt <$> ps →
  get_dashboard_stats u db
  = survival_rate ←
      survival_rate_of (sum_Z rs + sum_Z ps - sum_Z ds - sum_Z xs)
        (sum_Z rs + sum_Z ps);
    rounded ← py_round survival_rate 2;
    Ok (stats_dict (sum_Z rs) (sum_Z ds) (sum_Z xs) (sum_Z ps) rounded).
Proof.
  intros Hr Hd Hx Hp. unfold get_dashboard_stats, to_list.
  unfold owned_by in Hr, Hd, Hx, Hp.
  rewrite Hr, Hd, Hx, Hp, !py_sum_ints. reflexivity.
Qed.

(** C3 (amended): when the quantity fields of the first 1000 records of the
    owner in the Received, Dead, Discarded and Produced collections are the
    ints [rs], [ds], [xs], [ps] (all of the owner's records when there are at
    most 1000), the handler computes the four totals as their sums,
    total_in_nursery = received + produced - dead - discarded, and the
    survival rate as round((total_in_nursery / total_input) * 100, 2) in
    binary64 arithmetic, quotient first, when total_input > 0, and as 0
    otherwise.  For Received [10,5], Produced [3], Dead [2], Discarded [1]
    the totals are 15, 3, 2, 1, total_in_nursery is 15 and the rate is the
    float 83.33. *)
Theorem dashboard_totals (u : string) (db : DB) (rs ds xs ps : list Z) :
  get_quantity <$> take 1000 (owned_by u (seedlings_received db)) = VInt <$> rs →
  get_quantity <$> take 1000 (owned_by u (dead_seedlings db)) = VInt <$> ds →
  get_quantity <$> take 1000 (owned_by u (discarded_seedlings db)) = VInt <$> xs →
  get_quantity <$> take 1000 (owned_by u (nursery_produced db)) = VInt <$> ps →
  let total_received := sum_Z rs in
  let total_dead := sum_Z ds in
  let total_discarded := sum_Z xs in
  let total_produced := sum_Z ps in
  let total_in_nursery :=
    (total_received + total_produced - total_dead - total_discarded)%Z in
  let total_input := (total_received + total_produced)%Z in
  get_dashboard_stats u db
  = (if (0 <? total_input)%Z then
       q ← int_truediv total_in_nursery total_input;
       Ok (stats_dict total_received total_dead total_discarded total_produced
             (VFloat (float_round (float_mul_int q 100) 2)))
     else
       Ok (stats_dict total_received total_dead total_discarded total_produced
             (VInt 0)))
  ∧ (rs = [10; 5]%Z → ps = [3]%Z → ds = [2]%Z → xs = [1]%Z →
     get_dashboard_stats u db
     = Ok (list_to_map
             [("total_received", VInt 15); ("total_dead", VInt 2);
              ("total_discarded", VInt 1); ("total_produced", VInt 3);
              ("survival_rate", VFloat (float_of_decimal false 8333 2));
              ("total_in_nursery", VInt 15)])).
Proof.
  intros Hr Hd Hx Hp. simpl.
  rewrite (get_dashboard_stats_quantities u db rs ds xs ps Hr Hd Hx Hp).
  split.
  - unfold survival_rate_of.
    destruct (0 <? sum_Z rs + sum_Z ps)%Z; [|reflexivity].
    by destruct (int_truediv _ _).
  - intros -> -> -> ->. vm_compute. reflexivity.
Qed.

(** [dashboard_totals] on the example of the specification. *)
Lemma dashboard_totals_witness :
  get_dashboard_stats "alice" db_example
  = Ok (list_to_map
          [("total_received", VInt 15); ("total_dead", VInt 2);
           ("total_discarded", VInt 1); ("total_produced", VInt 3);
           ("survival_rate", VFloat (float_of_decimal false 8333 2));
           ("total_in_nursery", VInt 15)]).
Proof.
  apply (dashboard_totals "alice" db_example [10; 5]%Z [2]%Z [1]%Z [3]%Z);
    reflexivity.
Defined.

(** C3 as stated fails on three inputs.  With 160 received and 137 dead the
    handler's rate is 14.37 where round(100 * 23 / 160, 2) is 14.38 (the
    exact value is 14.375; the handler's quotient-first product lies just
    below it).  With a single received quantity of -10 the input is not
    positive and the handler's rate is 0, not 100.0.  With 1001 received
    records of one seedling the handler's total is 1000, not 1001. *)
Lemma dashboard_differs_from_spec :
  (stat "survival_rate" (get_dashboard_stats "alice" db_tie)
     = Some (VFloat (float_of_decimal false 1437 2))
   ∧ stat "survival_rate" (spec_dashboard "alice" db_tie)
     = Some (VFloat (float_of_decimal false 1438 2))
   ∧ get_dashboard_stats "alice" db_tie ≠ spec_dashboard "alice" db_tie)
  ∧ (stat "survival_rate" (get_dashboard_stats "alice" db_negative)
       = Some (VInt 0)
     ∧ stat "survival_rate" (spec_dashboard "alice" db_negative)
       = Some (VFloat (float_of_decimal false 10000 2))
     ∧ get_dashboard_stats "alice" db_negative ≠ spec_dashboard "alice" db_negative)
  ∧ (stat "total_received" (get_dashboard_stats "alice" db_large)
       = Some (VInt 1000)
     ∧ stat "total_received" (spec_dashboard "alice" db_large)
       = Some (VInt 1001)
     ∧ get_dashboard_stats "alice" db_large ≠ spec_dashboard "alice" db_large).
Proof.
  repeat split; try (vm_compute; reflexivity).
  - intros Heq. apply (f_equal (stat "survival_rate")) in Heq.
    vm_compute in Heq. discriminate Heq.
  - intros Heq. apply (f_equal (stat "survival_rate")) in Heq.
    vm_compute in Heq. discriminate Heq.
  - intros Heq. apply (f_equal (stat "total_received")) in Heq.
    vm_compute in Heq. discriminate Heq.
Qed.

(** C4: the handler never raises ZeroDivisionError: without a positive
    total input the division is not evaluated and the rate is the int 0.
    For an owner without records in the four collections every total is 0,
    total_in_nursery is 0 and the survival rate is 0. *)
Theorem dashboard_empty_owner (u : string) (db : DB) :
  get_dashboard_stats u db ≠ Raise ZeroDivisionError
  ∧ (∀ n, survival_rate_of n 0 = Ok (VInt 0))
  ∧ (owned_by u (seedlings_received db) = [] →
     owned_by u (dead_seedlings db) = [] →
     owned_by u (discarded_seedlings db) = [] →
     owned_by u (nursery_produced db) = [] →
     get_dashboard_stats u db
     = Ok (list_to_map
             [("total_received", VInt 0); ("total_dead", VInt 0);
              ("total_discarded", VInt 0); ("total_produced", VInt 0);
              ("survival_rate", VInt 0); ("total_in_nursery", VInt 0)])).
Proof.
  split; [|split].
  - unfold get_dashboard_stats.
    generalize (to_list 1000 (find {["user_id" := VStr u]} (seedlings_received db))),
      (to_list 1000 (find {["user_id" := VStr u]} (dead_seedlings db))),
      (to_list 1000 (find {["user_id" := VStr u]} (discarded_seedlings db))),
      (to_list 1000 (find {["user_id" := VStr u]} (nursery_produced db))).
    intros lr ld lx lp.
    destruct (py_sum (get_quantity <$> lr)) as [r|e] eqn:Hr; cbn [mbind result_bind];
      [|apply py_sum_from_raises in Hr; by subst].
    destruct (py_sum (get_quantity <$> ld)) as [d|e] eqn:Hd; cbn [mbind result_bind];
      [|apply py_sum_from_raises in Hd; by subst].
    destruct (py_sum (get_quantity <$> lx)) as [x|e] eqn:Hx; cbn [mbind result_bind];
      [|apply py_sum_from_raises in Hx; by subst].
    destruct (py_sum (get_quantity <$> lp)) as [p|e] eqn:Hp; cbn [mbind result_bind];
      [|apply py_sum_from_raises in Hp; by subst].
    destruct (survival_rate_of _ _) as [rate|e] eqn:Hrate;
      cbn [mbind result_bind].
    + unfold survival_rate_of in Hrate.
      destruct (0 <? r + p)%Z.
      * destruct (int_truediv _ _); cbn [mbind result_bind] in Hrate; [|done].
        by injection Hrate as <-.
      * by injection Hrate as <-.
    + intros [= ->]. by apply survival_rate_of_no_zero_division in Hrate.
  - intros n. by apply survival_rate_of_no_input.
  - intros Hr Hd Hx Hp.
    rewrite (get_dashboard_stats_quantities u db [] [] [] []);
      [reflexivity| | | |]; by rewrite ?Hr, ?Hd, ?Hx, ?Hp.
Qed.

(** [dashboard_empty_owner] for carol, who has no records. *)
Lemma dashboard_empty_owner_witness :
  get_dashboard_stats "carol" db_example
  = Ok (list_to_map
          [("total_received", VInt 0); ("total_dead", VInt 0);
           ("total_discarded", VInt 0); ("total_produced", VInt 0);
           ("survival_rate", VInt 0); ("total_in_nursery", VInt 0)]).
Proof.
  apply (dashboard_empty_owner "carol" db_example); reflexivity.
Defined.

(** C1: the dict that the handler returns never has the key
    [total_distributed], which the response model [DashboardStats] requires:
    whenever the handler returns, the route fails with a response
    validation error (status 500) instead of answering with a DashboardStats
    value; so it does for alice on the empty store. *)
Theorem dashboard_route_lacks_total_distributed (u : string) (db : DB) :
  match get_dashboard_stats u db with
  | Ok content =>
      content !! "total_distributed" = None
      ∧ dashboard_stats_route u db = Raise ResponseValidationError
  | Raise e => dashboard_stats_route u db = Raise e
  end
  ∧ dashboard_stats_route "alice" empty_db = Raise ResponseValidationError
  ∧ status_of (dashboard_stats_route "alice" empty_db) = 500%Z.
Proof.
  split; [|split; reflexivity].
  unfold dashboard_stats_route. unfold get_dashboard_stats.
  generalize (to_list 1000 (find {["user_id" := VStr u]} (seedlings_received db))),
    (to_list 1000 (find {["user_id" := VStr u]} (dead_seedlings db))),
    (to_list 1000 (find {["user_id" := VStr u]} (discarded_seedlings db))),
    (to_list 1000 (find {["user_id" := VStr u]} (nursery_produced db))).
  intros lr ld lx lp.
  destruct (py_sum (get_quantity <$> lr)) as [r|e]; cbn [mbind result_bind]; [|done].
  destruct (py_sum (get_quantity <$> ld)) as [d|e]; cbn [mbind result_bind]; [|done].
  destruct (py_sum (get_quantity <$> lx)) as [x|e]; cbn [mbind result_bind]; [|done].
  destruct (py_sum (get_quantity <$> lp)) as [p|e]; cbn [mbind result_bind]; [|done].
  destruct (survival_rate_of _ _) as [rate|e]; cbn [mbind result_bind]; [|done].
  destruct (py_round rate 2) as [rounded|e]; cbn [mbind result_bind]; [|done].
  split; reflexivity.
Qed.

(** ** CSV export *)

Lemma written_text_app (o1 o2 : list chunk) :
  written_text (o1 ++ o2) = (written_text o1 ++ written_text o2)%list.
Proof. unfold written_text. apply omap_app. Qed.

Lemma written_text_write_table (fieldnames : list string) (items : list document) :
  written_text (write_table fieldnames items) = [].
Proof.
  destruct items as [|item items]; [reflexivity|].
  unfold write_table, written_text. simpl.
  induction items as [|i l IH]; [reflexivity|]. simpl. exact IH.
Qed.

(** C8: the text that the export writes with [output.write] is always the
    five section headers, in the order Received, Delivery Notes, Dead,
    Discarded, Produced; the export does not depend on the collection of
    distributed seedlings; and for an owner without records in the five
    exported collections it consists of the five headers only, without any
    csv row, whatever the csv formatting is. *)
Theorem export_five_sections (u : string) (db : DB) :
  written_text (export_to_csv u db)
  = [header_received; header_delivery; header_dead; header_discarded;
     header_produced]
  ∧ (∀ distributed,
       export_to_csv u (set_coll DistributedSeedlings distributed db)
       = export_to_csv u db)
  ∧ (owned_by u (seedlings_received db) = [] →
     owned_by u (delivery_notes db) = [] →
     owned_by u (dead_seedlings db) = [] →
     owned_by u (discarded_seedlings db) = [] →
     owned_by u (nursery_produced db) = [] →
     export_to_csv u db
     = [WriteText header_received; WriteText header_delivery; WriteText header_dead;
        WriteText header_discarded; WriteText header_produced]
     ∧ written_rows (export_to_csv u db) = []
     ∧ ∀ csv_line,
         getvalue csv_line (export_to_csv u db)
         = header_received +:+ header_delivery +:+ header_dead
           +:+ header_discarded +:+ header_produced).
Proof.
  split; [|split].
  - unfold export_to_csv.
    rewrite !written_text_app, !written_text_write_table. reflexivity.
  - intros distributed. reflexivity.
  - unfold owned_by. intros Hr Hn Hd Hx Hp.
    assert (export_to_csv u db
            = [WriteText header_received; WriteText header_delivery; WriteText header_dead;
               WriteText header_discarded; WriteText header_produced]) as ->.
    { unfold export_to_csv, to_list. by rewrite Hr, Hn, Hd, Hx, Hp. }
    split; [reflexivity|]. split; [reflexivity|]. intros csv_line. reflexivity.
Qed.

(** [export_five_sections] for carol, who has no records. *)
Lemma export_five_sections_witness :
  export_to_csv "carol" db_example
  = [WriteText header_received; WriteText header_delivery; WriteText header_dead;
     WriteText header_discarded; WriteText header_produced].
Proof.
  apply (export_five_sections "carol" db_example); reflexivity.
Defined.

(** The rows of a non-empty section: the field names, then one row per
    record with the fields of that section. *)
Lemma written_rows_write_table (fieldnames : list string) (items : list document) :
  items ≠ [] →
  written_rows (write_table fieldnames items)
  = (VStr <$> fieldnames) :: (row_of fieldnames <$> items).
Proof.
  destruct items as [|item items]; [done|]. intros _.
  unfold write_table, written_rows. simpl. f_equal. f_equal.
  induction items as [|i l IH]; [reflexivity|]. simpl. by rewrite IH.
Qed.

(** ** ObjectId: printing and parsing agree *)

Lemma fromhex_byte_hex (b : ascii) (s : list ascii) :
  fromhex (byte_hex b ++ s)%list
  = match fromhex s with Some bs => Some (b :: bs) | None => None end.
Proof.
  destruct b as [[] [] [] [] [] [] [] []]; reflexivity.
Qed.

Lemma fromhex_hex (bs : list ascii) : fromhex (flat_map byte_hex bs) = Some bs.
Proof.
  induction bs as [|b bs IH]; [done|].
  change (flat_map byte_hex (b :: bs))
    with (byte_hex b ++ flat_map byte_hex bs)%list.
  by rewrite fromhex_byte_hex, IH.
Qed.

Lemma length_hex (bs : list ascii) :
  length (flat_map byte_hex bs) = 2 * length bs.
Proof. induction bs as [|b bs IH]; simpl; lia. Qed.

Lemma length_string_of_list_ascii (l : list ascii) :
  String.length (string_of_list_ascii l) = length l.
Proof. induction l as [|c l IH]; simpl; congruence. Qed.

(** The id that a listing shows for a stored record (12 bytes, as the driver
    generates them) is accepted by [ObjectId(...)] and denotes that record. *)
Lemma ObjectId_of_str_str (o : ObjectId) :
  length (binary o) = 12 → ObjectId_of_str (str_of_ObjectId o) = Ok o.
Proof.
  destruct o as [bs]. simpl. intros Hlen.
  unfold ObjectId_of_str, str_of_ObjectId. simpl.
  rewrite length_string_of_list_ascii, length_hex, Hlen. simpl.
  by rewrite list_ascii_of_string_of_list_ascii, fromhex_hex.
Qed.

(** [list_capped_newest_first] on a store with three notes of alice. *)
Lemma list_capped_newest_first_witness :
  ∃ docs : list pydict,
    list_records DeliveryNotes "alice" db_dated = Ok docs
    ∧ (length docs ≤ 1000)%nat
    ∧ StronglySorted newer_first docs.
Proof.
  destruct (list_capped_newest_first DeliveryNotes "alice" db_dated)
    as (docs & kept & rest & Hdocs & _ & _ & _ & Hlen & Hsorted & _ & _).
  exists docs. repeat split; assumption.
Defined.

(** The listing of the example, computed: newest first. *)
Example list_records_db_dated :
  list_records DeliveryNotes "alice" db_dated
  = Ok (stringify_id <$>
          [dated_record 3 "alice" 90; dated_record 4 "alice" 60;
           dated_record 1 "alice" 50]).
Proof. vm_compute. reflexivity. Qed.

(** ** Further properties of the record endpoints *)

Lemma set_coll_set_coll (r : resource) (c c' : list document) (db : DB) :
  set_coll r c (set_coll r c' db) = set_coll r c db.
Proof. by destruct r. Qed.

(** What [delete_one] does: nothing when no document matches, otherwise it
    takes out the first match. *)
Lemma delete_one_first_match (flt : pydict) (l1 l2 : list document) (s : document) :
  Forall (λ d, ¬ flt ⊆ as_dict d) l1 → flt ⊆ as_dict s →
  delete_one flt (l1 ++ s :: l2) = ((l1 ++ l2)%list, 1%Z).
Proof.
  intros Hl1 Hs. induction Hl1 as [|d l1 Hd _ IH]; simpl.
  - by rewrite decide_True.
  - rewrite decide_False by done. by rewrite IH.
Qed.

Lemma delete_one_cases (flt : pydict) (c : list document) :
  Forall (λ d, ¬ flt ⊆ as_dict d) c
  ∨ ∃ l1 s l2, c = (l1 ++ s :: l2)%list
      ∧ Forall (λ d, ¬ flt ⊆ as_dict d) l1 ∧ flt ⊆ as_dict s.
Proof.
  induction c as [|d c IH]; [by left|].
  destruct (decide (flt ⊆ as_dict d)) as [Hd|Hd].
  - right. exists [], d, c. by repeat split.
  - destruct IH as [IH|(l1 & s & l2 & -> & Hl1 & Hs)].
    + left. by constructor.
    + right. exists (d :: l1), s, l2. repeat split; [by constructor|done].
Qed.



Lemma not_elem_of_ids (c : list document) (s : document) :
  doc_id s ∉ doc_id <$> c → s ∉ c.
Proof. intros Hnot Hs. apply Hnot. by apply list_elem_of_fmap_2. Qed.

Lemma unique_ids_app_inv (l1 l2 : list document) (s : document) :
  unique_ids (l1 ++ s :: l2) →
  unique_ids (l1 ++ l2) ∧ doc_id s ∉ doc_id <$> (l1 ++ l2)%list.
Proof.
  unfold unique_ids. rewrite !fmap_app, fmap_cons.
  intros Hnd. apply NoDup_app in Hnd as (H1 & H12 & H2).
  apply NoDup_cons in H2 as [Hs H2]. split.
  - apply NoDup_app. split; [done|]. split; [|done].
    intros x Hx Hx2. apply (H12 x Hx). by right.
  - intros [Hin|Hin]%elem_of_app; [|done].
    apply (H12 _ Hin). by left.
Qed.

(** X2: the owner of a record deletes it with the id that a listing shows
    for it.  With unique 12-byte ids the request succeeds, exactly that record
    leaves the collection (every other record stays, in its place), and a
    second request with the same id is answered by 404. *)
Theorem delete_own_record (r : resource) (username : string) (s : document)
    (db : DB) :
  unique_ids (coll r db) →
  s ∈ coll r db →
  as_dict s !! "user_id" = Some (VStr username) →
  length (binary (doc_id s)) = 12 →
  ∃ (id : string) (l1 l2 : list document) (db' : DB),
    stringify_id s !! "_id" = Some (VStr id)
    ∧ coll r db = (l1 ++ s :: l2)%list
    ∧ delete_record r id username db = (Ok deleted_message, db')
    ∧ coll r db' = (l1 ++ l2)%list
    ∧ (s ∉ coll r db')
    ∧ delete_record r id username db'
      = (Raise (HTTPException 404 "Item not found"), db').
Proof.
  intros Huniq Hs Hu Hlen.
  exists (str_of_ObjectId (doc_id s)).
  pose proof (ObjectId_of_str_str (doc_id s) Hlen) as Hid.
  apply list_elem_of_split in Hs as (l1 & l2 & Hc).
  rewrite Hc in Huniq.
  destruct (unique_ids_app_inv _ _ _ Huniq) as [Huniq' Hfresh].
  assert (Forall (λ d, ¬ (<["_id" := VOid (doc_id s)]>
                           {["user_id" := VStr username]} : pydict)
                         ⊆ as_dict d) (l1 ++ l2)) as Hnone.
  { apply Forall_forall. intros d Hd [Hdid _]%id_filter_spec.
    apply Hfresh. rewrite <- Hdid. by apply list_elem_of_fmap_2. }
  exists l1, l2, (set_coll r (l1 ++ l2) db).
  split; [apply lookup_insert_eq|]. split; [done|]. split.
  { unfold delete_record. rewrite Hid, Hc.
    rewrite delete_one_first_match; [done| |by apply id_filter_spec].
    apply Forall_app in Hnone as [Hl1 _]. exact Hl1. }
  rewrite coll_set_coll. split; [done|]. split.
  { by apply not_elem_of_ids. }
  unfold delete_record. rewrite Hid, coll_set_coll.
  rewrite (delete_one_no_match _ _ Hnone). simpl.
  by rewrite set_coll_set_coll.
Qed.

(** [delete_own_record] for alice's record 8 of the example store. *)
Lemma delete_own_record_witness :
  (unique_ids (coll SeedlingsReceived db_two_owners)
   ∧ quantity_record 8 "alice" 2 ∈ coll SeedlingsReceived db_two_owners
   ∧ as_dict (quantity_record 8 "alice" 2) !! "user_id" = Some (VStr "alice")
   ∧ length (binary (doc_id (quantity_record 8 "alice" 2))) = 12)
  ∧ ∃ (id : string) (l1 l2 : list document) (db' : DB),
      stringify_id (quantity_record 8 "alice" 2) !! "_id" = Some (VStr id)
      ∧ coll SeedlingsReceived db_two_owners
        = (l1 ++ quantity_record 8 "alice" 2 :: l2)%list
      ∧ delete_record SeedlingsReceived id "alice" db_two_owners
        = (Ok deleted_message, db')
      ∧ coll SeedlingsReceived db' = (l1 ++ l2)%list
      ∧ (quantity_record 8 "alice" 2 ∉ coll SeedlingsReceived db')
      ∧ delete_record SeedlingsReceived id "alice" db'
        = (Raise (HTTPException 404 "Item not found"), db').
Proof.
  assert (unique_ids (coll SeedlingsReceived db_two_owners)) as Huniq.
  { unfold unique_ids. apply (bool_decide_unpack _). vm_compute. exact I. }
  assert (quantity_record 8 "alice" 2 ∈ coll SeedlingsReceived db_two_owners)
    as Hin.
  { simpl. apply list_elem_of_further, list_elem_of_here. }
  split.
  - split; [exact Huniq|]. split; [exact Hin|]. split; reflexivity.
  - apply delete_own_record; [exact Huniq|exact Hin|reflexivity|reflexivity].
Defined.

Lemma post_Ok (req : create_request) (username : string) (oid : ObjectId)
    (db : DB) (response : pydict) :
  (post req username oid db).1 = Ok response →
  response = create_response req username oid
  ∧ (post req username oid db).2
    = set_coll (resource_of req)
        (coll (resource_of req) db ++ [stored_document req username oid]) db.
Proof.
  destruct (post_cases req username oid db) as [[-> _]|[-> _]];
    cbn [fst snd]; [done|]. by intros [= <-].
Qed.

(** What a listing shows for the stored document is the response of the
    creation as BSON holds it: the same but for datetimes, which are in
    whole milliseconds. *)
Lemma stringify_id_stored_document (req : create_request) (username : string)
    (oid : ObjectId) :
  stringify_id (stored_document req username oid)
  = bson_value <$> create_response req username oid.
Proof.
  unfold stringify_id, as_dict, stored_document, create_response.
  cbn [doc_id fields]. by rewrite insert_insert_eq, !fmap_insert.
Qed.

(** X3: a record that was just created is deleted again by its creator with
    the [_id] of the response, and the store is then exactly what it was
    before the creation (the creation succeeded, and the generated id is a
    fresh 12-byte ObjectId). *)
Theorem create_then_delete (req : create_request) (username : string)
    (oid : ObjectId) (db : DB) (response : pydict) :
  oid ∉ doc_id <$> coll (resource_of req) db →
  length (binary oid) = 12 →
  (post req username oid db).1 = Ok response →
  ∃ id : string,
    response !! "_id" = Some (VStr id)
    ∧ delete_record (resource_of req) id username (post req username oid db).2
      = (Ok deleted_message, db).
Proof.
  intros Hfresh Hlen [-> ->]%post_Ok.
  exists (str_of_ObjectId oid).
  split; [apply lookup_insert_eq|].
  unfold delete_record.
  rewrite (ObjectId_of_str_str oid Hlen), coll_set_coll.
  rewrite delete_one_first_match.
  - simpl. by rewrite app_nil_r, set_coll_set_coll, set_coll_coll.
  - apply Forall_forall. intros d Hd [Hdid _]%id_filter_spec.
    apply Hfresh. rewrite <- Hdid. by apply list_elem_of_fmap_2.
  - apply id_filter_spec. split; [done|]. apply stored_document_user_id.
Qed.

Lemma example_post_Ok (username : string) (db : DB) :
  (post example_post username (example_id 9) db).1
  = Ok (create_response example_post username (example_id 9)).
Proof.
  destruct (post_cases example_post username (example_id 9) db)
    as [[_ Hno]|[-> _]]; [|done].
  exfalso. apply Hno. unfold example_post, request_dict, DeadSeedling.dict.
  rewrite !list_to_map_cons, list_to_map_nil.
  repeat (apply map_Forall_insert_2; [done|]). apply map_Forall_empty.
Qed.

(** [create_then_delete] for a record that alice adds to the example store. *)
Lemma create_then_delete_witness :
  ((example_id 9 ∉ doc_id <$> coll (resource_of example_post) db_example)
   ∧ length (binary (example_id 9)) = 12
   ∧ (post example_post "alice" (example_id 9) db_example).1
     = Ok (create_response example_post "alice" (example_id 9)))
  ∧ ∃ id : string,
      create_response example_post "alice" (example_id 9) !! "_id"
      = Some (VStr id)
      ∧ delete_record (resource_of example_post) id "alice"
          (post example_post "alice" (example_id 9) db_example).2
        = (Ok deleted_message, db_example).
Proof.
  assert (example_id 9 ∉ doc_id <$> coll (resource_of example_post) db_example)
    as Hfresh.
  { apply (bool_decide_unpack _). vm_compute. exact I. }
  split; [split; [exact Hfresh|split; [reflexivity|apply example_post_Ok]]|].
  apply create_then_delete;
    [exact Hfresh|reflexivity|apply example_post_Ok].
Defined.

Lemma owned_by_app (u : string) (c1 c2 : list document) :
  owned_by u (c1 ++ c2) = (owned_by u c1 ++ owned_by u c2)%list.
Proof. apply find_app. Qed.

Lemma owned_by_singleton (u : string) (s : document) :
  as_dict s !! "user_id" = Some (VStr u) → owned_by u [s] = [s].
Proof.
  intros Hu. unfold owned_by, find.
  rewrite filter_cons_True; [done|]. by apply user_filter_spec.
Qed.

Lemma owned_by_singleton_other (u v : string) (s : document) :
  u ≠ v → as_dict s !! "user_id" = Some (VStr v) → owned_by u [s] = [].
Proof.
  intros Huv Hv. unfold owned_by, find.
  rewrite filter_cons_False; [done|].
  intros Hu%user_filter_spec. rewrite Hv in Hu. by injection Hu as ->.
Qed.

(** X4: a record that was just created shows up in the next listing of its
    creator, provided the creator had fewer than 1000 records of that kind:
    the listing holds the response of the creation as the store keeps it,
    that is with every datetime ([created_at]) cut to whole milliseconds
    and every other field, the string [_id] and the caller as [user_id]
    included, as in the response. *)
Theorem create_then_list (req : create_request) (username : string)
    (oid : ObjectId) (db : DB) (response : pydict) :
  length (owned_by username (coll (resource_of req) db)) < 1000 →
  (post req username oid db).1 = Ok response →
  ∃ (listed : pydict) (docs : list pydict),
    list_records (resource_of req) username (post req username oid db).2
    = Ok docs
    ∧ listed ∈ docs
    ∧ listed = bson_value <$> response
    ∧ listed !! "_id" = response !! "_id"
    ∧ listed !! "user_id" = Some (VStr username)
    ∧ (∀ k v, response !! k = Some v → listed !! k = Some (bson_value v)).
Proof.
  intros Hlen [-> Hstore]%post_Ok.
  exists (stringify_id (stored_document req username oid)). eexists.
  split; [reflexivity|]. split.
  { apply list_elem_of_fmap_2. unfold to_list.
    rewrite Hstore, coll_set_coll.
    fold (owned_by username
            (coll (resource_of req) db ++ [stored_document req username oid])).
    rewrite take_ge.
    - rewrite sort_created_desc_perm, owned_by_app.
      rewrite owned_by_singleton by apply stored_document_user_id.
      apply elem_of_app. right. apply list_elem_of_here.
    - rewrite (Permutation_length (sort_created_desc_perm _)), owned_by_app.
      rewrite owned_by_singleton by apply stored_document_user_id.
      rewrite length_app. simpl. lia. }
  split; [apply stringify_id_stored_document|].
  rewrite stringify_id_stored_document. split.
  { unfold create_response. by rewrite lookup_fmap, lookup_insert_eq. }
  split.
  { by rewrite lookup_fmap, create_response_user_id. }
  intros k v Hk. by rewrite lookup_fmap, Hk.
Qed.

(** [create_then_list] for a record that alice adds to the example store. *)
Lemma create_then_list_witness :
  (length (owned_by "alice" (coll (resource_of example_post) db_example)) < 1000
   ∧ (post example_post "alice" (example_id 9) db_example).1
     = Ok (create_response example_post "alice" (example_id 9)))
  ∧ ∃ (listed : pydict) (docs : list pydict),
      list_records (resource_of example_post) "alice"
        (post example_post "alice" (example_id 9) db_example).2
      = Ok docs
      ∧ listed ∈ docs
      ∧ listed
        = bson_value <$> create_response example_post "alice" (example_id 9).
Proof.
  assert (length (owned_by "alice" (coll (resource_of example_post) db_example))
          < 1000) as Hlen.
  { vm_compute. lia. }
  split; [split; [exact Hlen|apply example_post_Ok]|].
  destruct (create_then_list example_post "alice" (example_id 9) db_example
              _ Hlen (example_post_Ok "alice" db_example))
    as (listed & docs & Hlist & Hin & Heq & _).
  exists listed, docs. split; [exact Hlist|]. split; [exact Hin|exact Heq].
Defined.

(** ** What one user's requests change for another user *)

(** The listing, the dashboard and the export of a user read the store only
    through the query for that user's documents. *)
Lemma views_of_owned (u : string) (db db' : DB) :
  (∀ r, owned_by u (coll r db') = owned_by u (coll r db)) →
  (∀ r, list_records r u db' = list_records r u db)
  ∧ get_dashboard_stats u db' = get_dashboard_stats u db
  ∧ export_to_csv u db' = export_to_csv u db.
Proof.
  intros Hsame. unfold owned_by in Hsame.
  pose proof (Hsame SeedlingsReceived) as Hreceived.
  pose proof (Hsame DeliveryNotes) as Hdelivery.
  pose proof (Hsame DeadSeedlings) as Hdead.
  pose proof (Hsame DiscardedSeedlings) as Hdiscarded.
  pose proof (Hsame NurseryProduced) as Hproduced.
  cbn [coll] in Hreceived, Hdelivery, Hdead, Hdiscarded, Hproduced.
  split; [|split].
  - intros r. unfold list_records. by rewrite Hsame.
  - unfold get_dashboard_stats.
    by rewrite Hreceived, Hdead, Hdiscarded, Hproduced.
  - unfold export_to_csv.
    by rewrite Hreceived, Hdelivery, Hdead, Hdiscarded, Hproduced.
Qed.

Lemma owned_by_post_other (req : create_request) (u v : string)
    (oid : ObjectId) (db : DB) (r : resource) :
  u ≠ v →
  owned_by u (coll r (post req v oid db).2) = owned_by u (coll r db).
Proof.
  intros Huv.
  destruct (post_cases req v oid db) as [[-> _]|[-> _]]; cbn [snd]; [done|].
  destruct (decide (r = resource_of req)) as [->|Hr].
  - rewrite coll_set_coll, owned_by_app.
    rewrite (owned_by_singleton_other u v) by
      (try done; apply stored_document_user_id).
    by rewrite app_nil_r.
  - by rewrite coll_set_coll_ne.
Qed.

Lemma owned_by_delete_other (r : resource) (id : string) (u v : string)
    (db : DB) (r' : resource) :
  u ≠ v →
  owned_by u (coll r' (delete_record r id v db).2) = owned_by u (coll r' db).
Proof.
  intros Huv. unfold delete_record.
  destruct (ObjectId_of_str id) as [oid|e]; [|done].
  destruct (delete_one_cases
              (<["_id" := VOid oid]> {["user_id" := VStr v]}) (coll r db))
    as [Hnone|(l1 & s & l2 & Hc & Hl1 & Hs)].
  - rewrite (delete_one_no_match _ _ Hnone). simpl. by rewrite set_coll_coll.
  - rewrite Hc, (delete_one_first_match _ _ _ _ Hl1 Hs). simpl.
    destruct (decide (r' = r)) as [->|Hr].
    + rewrite coll_set_coll, Hc, !owned_by_app.
      change (s :: l2) with ([s] ++ l2)%list. rewrite owned_by_app.
      apply id_filter_spec in Hs as [_ Hsv].
      by rewrite (owned_by_singleton_other u v s).
    + by rewrite coll_set_coll_ne.
Qed.

(** X5: a record created by another user changes nothing for [u]: every
    listing of [u], the dashboard of [u] and the export of [u] are the same
    before and after. *)
Theorem post_of_other_user_invisible (req : create_request) (u v : string)
    (oid : ObjectId) (db : DB) :
  u ≠ v →
  (∀ r, list_records r u (post req v oid db).2 = list_records r u db)
  ∧ get_dashboard_stats u (post req v oid db).2 = get_dashboard_stats u db
  ∧ export_to_csv u (post req v oid db).2 = export_to_csv u db.
Proof.
  intros Huv. apply views_of_owned. intros r. by apply owned_by_post_other.
Qed.

(** [post_of_other_user_invisible]: bob creates a record, alice's views of
    the example store stay. *)
Lemma post_of_other_user_invisible_witness :
  "alice" ≠ "bob"
  ∧ (∀ r, list_records r "alice" (post example_post "bob" (example_id 9)
                                    db_example).2
          = list_records r "alice" db_example)
  ∧ get_dashboard_stats "alice"
      (post example_post "bob" (example_id 9) db_example).2
    = get_dashboard_stats "alice" db_example
  ∧ export_to_csv "alice" (post example_post "bob" (example_id 9) db_example).2
    = export_to_csv "alice" db_example.
Proof.
  split; [done|]. by apply post_of_other_user_invisible.
Defined.

(** X6: a DELETE request of another user, whatever id it names and whether
    it succeeds or not, changes nothing for [u]: every listing of [u], the
    dashboard of [u] and the export of [u] are the same before and after. *)
Theorem delete_of_other_user_invisible (r : resource) (id : string)
    (u v : string) (db : DB) :
  u ≠ v →
  (∀ r', list_records r' u (delete_record r id v db).2 = list_records r' u db)
  ∧ get_dashboard_stats u (delete_record r id v db).2
    = get_dashboard_stats u db
  ∧ export_to_csv u (delete_record r id v db).2 = export_to_csv u db.
Proof.
  intros Huv. apply views_of_owned. intros r'. by apply owned_by_delete_other.
Qed.

(** [delete_of_other_user_invisible]: bob deletes his record 2 of the
    example store, alice's views stay. *)
Lemma delete_of_other_user_invisible_witness :
  "alice" ≠ "bob"
  ∧ (∀ r', list_records r' "alice"
             (delete_record SeedlingsReceived "000000000000000000000002"
                "bob" db_example).2
           = list_records r' "alice" db_example)
  ∧ get_dashboard_stats "alice"
      (delete_record SeedlingsReceived "000000000000000000000002"
         "bob" db_example).2
    = get_dashboard_stats "alice" db_example
  ∧ export_to_csv "alice"
      (delete_record SeedlingsReceived "000000000000000000000002"
         "bob" db_example).2
    = export_to_csv "alice" db_example.
Proof.
  split; [done|]. by apply delete_of_other_user_invisible.
Defined.

(** ** Invariants of the store *)

(** X7: the uniqueness of [_id] within each collection is kept by every
    create request whose generated id is fresh and by every delete request. *)
Theorem unique_ids_preserved (db : DB) :
  (∀ r, unique_ids (coll r db)) →
  (∀ req username oid,
     oid ∉ doc_id <$> coll (resource_of req) db →
     ∀ r, unique_ids (coll r (post req username oid db).2))
  ∧ (∀ r id username r',
       unique_ids (coll r' (delete_record r id username db).2)).
Proof.
  intros Huniq. split.
  - intros req username oid Hfresh r.
    destruct (post_cases req username oid db) as [[-> _]|[-> _]];
      cbn [snd]; [done|].
    destruct (decide (r = resource_of req)) as [->|Hr].
    + rewrite coll_set_coll. by apply unique_ids_snoc.
    + by rewrite coll_set_coll_ne.
  - intros r id username r'. unfold delete_record.
    destruct (ObjectId_of_str id) as [oid|e]; [|done].
    destruct (delete_one_cases
                (<["_id" := VOid oid]> {["user_id" := VStr username]})
                (coll r db))
      as [Hnone|(l1 & s & l2 & Hc & Hl1 & Hs)].
    + rewrite (delete_one_no_match _ _ Hnone). simpl. by rewrite set_coll_coll.
    + rewrite Hc, (delete_one_first_match _ _ _ _ Hl1 Hs). simpl.
      destruct (decide (r' = r)) as [->|Hr].
      * rewrite coll_set_coll. specialize (Huniq r). rewrite Hc in Huniq.
        by apply unique_ids_app_inv in Huniq as [? _].
      * by rewrite coll_set_coll_ne.
Qed.

Lemma unique_ids_db_example (r : resource) : unique_ids (coll r db_example).
Proof.
  unfold unique_ids. apply (bool_decide_unpack _). by destruct r; vm_compute.
Qed.

(** [unique_ids_preserved] on the example store. *)
Lemma unique_ids_preserved_witness :
  (∀ r, unique_ids (coll r db_example))
  ∧ (∀ r, unique_ids (coll r (post example_post "alice" (example_id 9)
                                db_example).2))
  ∧ (∀ r', unique_ids (coll r' (delete_record SeedlingsReceived
                                  "000000000000000000000002" "bob"
                                  db_example).2)).
Proof.
  split; [exact unique_ids_db_example|].
  destruct (unique_ids_preserved db_example unique_ids_db_example)
    as [Hpost Hdelete].
  split.
  - apply Hpost. apply (bool_decide_unpack _). vm_compute. exact I.
  - apply Hdelete.
Defined.

(** X8: when the owner has at most 1000 records of a kind, the listing is
    complete: it consists of all of the owner's records, each once, as
    printed by the listing. *)
Theorem list_complete_below_cap (r : resource) (u : string) (db : DB) :
  (length (owned_by u (coll r db)) ≤ 1000)%nat →
  ∃ docs : list pydict,
    list_records r u db = Ok docs
    ∧ docs ≡ₚ stringify_id <$> owned_by u (coll r db)
    ∧ ∀ s, s ∈ coll r db → as_dict s !! "user_id" = Some (VStr u) →
           stringify_id s ∈ docs.
Proof.
  intros Hlen. eexists. split; [reflexivity|].
  assert (to_list 1000
            (sort_created_desc (find {["user_id" := VStr u]} (coll r db)))
          ≡ₚ owned_by u (coll r db)) as Hperm.
  { unfold to_list. rewrite take_ge.
    - apply sort_created_desc_perm.
    - by rewrite (Permutation_length (sort_created_desc_perm _)). }
  split; [by rewrite Hperm|].
  intros s Hs Hu. apply list_elem_of_fmap_2. rewrite Hperm.
  unfold owned_by. apply elem_of_find. split; [|done]. by apply user_filter_spec.
Qed.

(** [list_complete_below_cap] for alice's notes in the dated store. *)
Lemma list_complete_below_cap_witness :
  (length (owned_by "alice" (coll DeliveryNotes db_dated)) ≤ 1000)%nat
  ∧ ∃ docs : list pydict,
      list_records DeliveryNotes "alice" db_dated = Ok docs
      ∧ docs ≡ₚ stringify_id <$> owned_by "alice" (coll DeliveryNotes db_dated)
      ∧ ∀ s, s ∈ coll DeliveryNotes db_dated →
             as_dict s !! "user_id" = Some (VStr "alice") →
             stringify_id s ∈ docs.
Proof.
  assert (length (owned_by "alice" (coll DeliveryNotes db_dated)) ≤ 1000)%nat
    as Hlen.
  { vm_compute. lia. }
  split; [exact Hlen|]. by apply list_complete_below_cap.
Defined.

(** ** Further properties of registration, login and the token check *)

Section auth_further.
Context `{Crypto}.

(** X9: a token issued at [t_issue] for a username is accepted, and yields
    that username, exactly as long as the check is made before the token
    expires; from then on the check answers 401 "Token expired".  The token
    expires 30 days after it was issued, less at most one second. *)
Theorem issued_token_lifetime (u : string) (t_issue t_check : Z) :
  get_current_user (create_access_token {["sub" := VStr u]} t_issue) t_check
  = (if (t_check <? expires_at t_issue)%Z then Ok u
     else Raise (HTTPException 401 "Token expired"))
  ∧ (t_issue + timedelta_days 30 - microseconds < expires_at t_issue)%Z
  ∧ (expires_at t_issue ≤ t_issue + timedelta_days 30)%Z.
Proof.
  split.
  - destruct (Z.ltb_spec t_check (expires_at t_issue)).
    + by apply get_current_user_issued.
    + by apply get_current_user_expired.
  - unfold expires_at, microseconds.
    pose proof (Z.div_mod (t_issue + timedelta_days 30) 1000000 ltac:(lia)).
    pose proof (Z.mod_pos_bound (t_issue + timedelta_days 30) 1000000 ltac:(lia)).
    lia.
Qed.

Lemma login_unknown_user (user : UserLogin) (now : Z) (db : DB) :
  find_one {["username" := VStr (username user)]} (users db) = None →
  login user now db = Raise (HTTPException 401 "Invalid credentials").
Proof. intros Hnone. unfold login. by rewrite Hnone. Qed.

Lemma login_wrong_password (user : UserLogin) (now : Z) (db : DB)
    (d : document) (hashed : string) :
  find_one {["username" := VStr (username user)]} (users db) = Some d →
  as_dict d !! "password" = Some (VStr hashed) →
  verify_password (password user) hashed = Ok false →
  login user now db = Raise (HTTPException 401 "Invalid credentials").
Proof.
  intros Hd Hpw Hverify. unfold login. rewrite Hd.
  unfold truthy. rewrite bool_decide_eq_false_2 by apply as_dict_nonempty.
  cbn [negb]. by rewrite Hpw, Hverify.
Qed.

(** X10: [login] answers with the same 401 "Invalid credentials" when no user
    has the username and when the stored hash does not verify the
    password. *)
Theorem login_rejects_bad_credentials (user : UserLogin) (now : Z) (db : DB) :
  (find_one {["username" := VStr (username user)]} (users db) = None →
   login user now db = Raise (HTTPException 401 "Invalid credentials"))
  ∧ (∀ d hashed,
       find_one {["username" := VStr (username user)]} (users db) = Some d →
       as_dict d !! "password" = Some (VStr hashed) →
       verify_password (password user) hashed = Ok false →
       login user now db = Raise (HTTPException 401 "Invalid credentials")).
Proof.
  split.
  - apply login_unknown_user.
  - intros d hashed. apply login_wrong_password.
Qed.

(** X11: [login] succeeds only for a stored user whose hash verifies the
    password; the response then names that username, and its token passes
    the bearer-token check as that username until it expires. *)
Theorem login_success_sound (user : UserLogin) (now : Z) (db : DB)
    (response : pydict) :
  login user now db = Ok response →
  (∃ d hashed,
     find_one {["username" := VStr (username user)]} (users db) = Some d
     ∧ as_dict d !! "password" = Some (VStr hashed)
     ∧ verify_password (password user) hashed = Ok true)
  ∧ ∃ token,
      response !! "access_token" = Some (VStr token)
      ∧ response !! "token_type" = Some (VStr "bearer")
      ∧ response !! "username" = Some (VStr (username user))
      ∧ ∀ t_check, (t_check < expires_at now)%Z →
          get_current_user token t_check = Ok (username user).
Proof.
  unfold login.
  destruct (find_one _ _) as [d|] eqn:Hd; [|done].
  destruct (truthy (Some d)); [|done].
  destruct (as_dict d !! "password") as [[]|] eqn:Hpw;
    try (intros Hno; discriminate Hno).
  destruct (verify_password _ _) as [[]|] eqn:Hverify;
    [|intros Hno; discriminate Hno|intros Hno; discriminate Hno].
  rewrite response_model_token. intros [= <-]. split.
  - by exists d, s.
  - eexists. split; [reflexivity|]. split; [reflexivity|].
    split; [reflexivity|]. intros t_check Hvalid.
    by apply get_current_user_issued.
Qed.

(** X12: [register] for a username that is free and a password that the
    hash accepts adds exactly one user document, made of the username, the
    hash of the password (not the password itself: what [get_password_hash]
    returned) and the creation time in whole milliseconds; it changes no
    record collection; and the token of its response passes the
    bearer-token check as the new user until it expires. *)
Theorem register_creates_user (user : UserRegister) (salt hashed : string)
    (oid : ObjectId) (now_doc now_token : Z) (db : DB) :
  find_one {["username" := VStr (username user)]} (users db) = None →
  get_password_hash salt (password user) = Ok hashed →
  ∃ (token : string) (db' : DB),
    register user salt oid now_doc now_token db
    = (Ok (token_response token (username user)), db')
    ∧ users db'
      = (users db
         ++ [Document oid
               (list_to_map
                  [("username", VStr (username user));
                   ("password", VStr hashed);
                   ("created_at", VDate (now_doc `div` 1000 * 1000))])])%list
    ∧ (∀ r, coll r db' = coll r db)
    ∧ ∀ t_check, (t_check < expires_at now_token)%Z →
        get_current_user token t_check = Ok (username user).
Proof.
  intros Hfree Hhash.
  exists (create_access_token {["sub" := VStr (username user)]} now_token).
  eexists. split.
  { by apply (register_fresh user salt hashed). }
  split; [done|]. split; [by intros []|]. intros t_check Hvalid.
  by apply get_current_user_issued.
Qed.

(** X13: after a registration that succeeded, a second registration under
    the same username does not take over the account: the first password
    still logs in, and the second one is refused with 401 when the stored
    hash does not verify it. *)
Theorem reregister_keeps_account (u pw1 pw2 salt1 salt2 hashed1 : string)
    (oid1 oid2 : ObjectId) (t1 t1' t2 t2' now : Z) (db : DB) :
  find_one {["username" := VStr u]} (users db) = None →
  get_password_hash salt1 pw1 = Ok hashed1 →
  let db1 := (register {| username := u; password := pw1 |}
                salt1 oid1 t1 t1' db).2 in
  let db2 := (register {| username := u; password := pw2 |}
                salt2 oid2 t2 t2' db1).2 in
  login {| username := u; password := pw1 |} now db2
  = Ok (token_response (create_access_token {["sub" := VStr u]} now) u)
  ∧ (verify_password pw2 hashed1 = Ok false →
     login {| username := u; password := pw2 |} now db2
     = Raise (HTTPException 401 "Invalid credentials")).
Proof.
  intros Hfree Hhash db1 db2.
  pose proof (find_one_after_register {| username := u; password := pw1 |}
                salt1 hashed1 oid1 t1 t1' db Hfree Hhash) as Hfound.
  cbn [username] in Hfound. fold db1 in Hfound.
  assert (db2 = db1) as ->.
  { subst db2. rewrite register_taken; [done|]. cbn [username].
    by rewrite Hfound. }
  split.
  - subst db1.
    apply (login_after_register {| username := u; password := pw1 |}
             salt1 hashed1 oid1 t1 t1' now db Hfree Hhash).
  - intros Hverify.
    by apply (login_wrong_password
                {| username := u; password := pw2 |} now db1
                (Document oid1 (user_document u hashed1 (t1 `div` 1000 * 1000)))
                hashed1).
Qed.

End auth_further.

(** [login_rejects_bad_credentials] on the store where alice is registered:
    an unknown user and a wrong password get the same answer. *)
Lemma login_rejects_bad_credentials_witness :
  @login plain_crypto {| username := "bob"; password := "s3cret" |} 5 db_alice
  = Raise (HTTPException 401 "Invalid credentials")
  ∧ @login plain_crypto {| username := "alice"; password := "guess" |} 5 db_alice
    = Raise (HTTPException 401 "Invalid credentials").
Proof.
  split.
  - apply (@login_rejects_bad_credentials plain_crypto). reflexivity.
  - eapply (@login_rejects_bad_credentials plain_crypto); reflexivity.
Defined.

(** [login_success_sound] for alice's login on the store where she is
    registered. *)
Lemma login_success_sound_witness :
  @login plain_crypto alice 2000000 db_alice
  = Ok (token_response
          (@create_access_token plain_crypto {["sub" := VStr "alice"]} 2000000)
          "alice")
  ∧ ∃ token,
      token_response
        (@create_access_token plain_crypto {["sub" := VStr "alice"]} 2000000)
        "alice" !! "access_token" = Some (VStr token)
      ∧ @get_current_user plain_crypto token 5000000 = Ok "alice".
Proof.
  assert (@login plain_crypto alice 2000000 db_alice
          = Ok (token_response
                  (@create_access_token plain_crypto
                     {["sub" := VStr "alice"]} 2000000) "alice")) as Hlogin.
  { apply (@login_after_register plain_crypto alice "salt" "s3cret$salt"
             (example_id 1) 0 0 2000000 empty_db); reflexivity. }
  split; [exact Hlogin|].
  destruct (@login_success_sound plain_crypto alice 2000000 db_alice _ Hlogin)
    as (_ & token & Htoken & _ & _ & Hcheck).
  exists token. split; [exact Htoken|]. apply Hcheck. vm_compute. reflexivity.
Defined.

(** [register_creates_user] for alice on the empty store. *)
Lemma register_creates_user_witness :
  (find_one {["username" := VStr (username alice)]} (users empty_db) = None
   ∧ @get_password_hash plain_crypto "salt" (password alice) = Ok "s3cret$salt")
  ∧ ∃ (token : string) (db' : DB),
      @register plain_crypto alice "salt" (example_id 1) 0 0 empty_db
      = (Ok (token_response token (username alice)), db')
      ∧ (∀ r, coll r db' = coll r empty_db)
      ∧ @get_current_user plain_crypto token 5000000 = Ok (username alice).
Proof.
  split; [split; reflexivity|].
  destruct (@register_creates_user plain_crypto alice "salt" "s3cret$salt"
              (example_id 1) 0 0 empty_db eq_refl eq_refl)
    as (token & db' & Hreg & _ & Hcoll & Hcheck).
  exists token, db'. split; [exact Hreg|]. split; [exact Hcoll|].
  apply Hcheck. vm_compute. reflexivity.
Defined.

(** [reregister_keeps_account]: after mallory's attempt to register as
    alice, alice's password logs in and mallory's does not. *)
Lemma reregister_keeps_account_witness :
  (find_one {["username" := VStr "alice"]} (users empty_db) = None
   ∧ @get_password_hash plain_crypto "salt" "s3cret" = Ok "s3cret$salt"
   ∧ @verify_password plain_crypto "guess" "s3cret$salt" = Ok false)
  ∧ @login plain_crypto {| username := "alice"; password := "s3cret" |} 9
      (@register plain_crypto {| username := "alice"; password := "guess" |}
         "pepper" (example_id 2) 5 5
         (@register plain_crypto {| username := "alice"; password := "s3cret" |}
            "salt" (example_id 1) 0 0 empty_db).2).2
    = Ok (token_response
            (@create_access_token plain_crypto {["sub" := VStr "alice"]} 9)
            "alice")
  ∧ @login plain_crypto {| username := "alice"; password := "guess" |} 9
      (@register plain_crypto {| username := "alice"; password := "guess" |}
         "pepper" (example_id 2) 5 5
         (@register plain_crypto {| username := "alice"; password := "s3cret" |}
            "salt" (example_id 1) 0 0 empty_db).2).2
    = Raise (HTTPException 401 "Invalid credentials").
Proof.
  split; [repeat split; reflexivity|].
  destruct (@reregister_keeps_account plain_crypto "alice" "s3cret" "guess"
              "salt" "pepper" "s3cret$salt" (example_id 1) (example_id 2)
              0 0 5 5 9 empty_db eq_refl eq_refl) as [Hfirst Hsecond].
  split; [exact Hfirst|]. apply Hsecond. reflexivity.
Defined.

Section usernames.
Context `{Crypto}.

(** X14: [register] keeps usernames unique: when no username has more than
    one user document, the same holds after any call of [register], whether
    it succeeds or is refused. *)
Theorem register_keeps_usernames_unique (user : UserRegister) (salt : string)
    (oid : ObjectId) (now_doc now_token : Z) (db : DB) :
  (∀ u, (length (find {["username" := VStr u]} (users db)) ≤ 1)%nat) →
  ∀ u, (length (find {["username" := VStr u]}
                  (users (register user salt oid now_doc now_token db).2))
        ≤ 1)%nat.
Proof.
  intros Huniq u.
  destruct (register_cases user salt oid now_doc now_token db)
    as [[_ ->]|[[_ (e & _ & ->)]|[Hfind (hashed & _ & ->)]]];
    cbn [snd]; [apply Huniq|apply Huniq|].
  cbn [users set_users]. rewrite find_app, length_app.
  destruct (decide (u = username user)) as [->|Hne].
  - apply find_one_None in Hfind. rewrite Hfind. simpl.
    unfold find. apply length_filter.
  - unfold find at 2. rewrite filter_cons_False.
    + specialize (Huniq u). simpl. lia.
    + intros Hmatch. apply map_singleton_subseteq_l in Hmatch.
      unfold as_dict in Hmatch. cbn [fields] in Hmatch.
      rewrite lookup_insert_ne in Hmatch by done.
      assert (user_document (username user) hashed (now_doc `div` 1000 * 1000)
                !! "username" = Some (VStr (username user))) as Hu
        by reflexivity.
      rewrite Hu in Hmatch. injection Hmatch as Heq. by apply Hne.
Qed.

End usernames.

(** [register_keeps_usernames_unique] from the empty store. *)
Lemma register_keeps_usernames_unique_witness :
  (∀ u, (length (find {["username" := VStr u]} (users empty_db)) ≤ 1)%nat)
  ∧ ∀ u, (length (find {["username" := VStr u]} (users db_alice)) ≤ 1)%nat.
Proof.
  assert (∀ u, (length (find {["username" := VStr u]} (users empty_db))
                ≤ 1)%nat) as Hempty.
  { intros u. simpl. lia. }
  split; [exact Hempty|].
  exact (@register_keeps_usernames_unique plain_crypto alice "salt"
           (example_id 1) 0 0 empty_db Hempty).
Defined.

(** ** The dashboard on stores that were filled through the API *)

Lemma stored_document_int_quantity (req : create_request) (username : string)
    (oid : ObjectId) :
  ∃ z, get_quantity (stored_document req username oid) = VInt z.
Proof. destruct req; eexists; reflexivity. Qed.

(** X15: "every stored quantity is an int" holds on the empty store and is
    kept by every create request (the request models declare
    [quantity: int]) and by every delete request. *)
Theorem int_quantities_preserved (db : DB) :
  int_quantities db →
  (∀ req username oid, int_quantities (post req username oid db).2)
  ∧ (∀ r id username, int_quantities (delete_record r id username db).2).
Proof.
  intros Hint. split.
  - intros req username oid r.
    destruct (post_cases req username oid db) as [[-> _]|[-> _]];
      cbn [snd]; [apply Hint|].
    destruct (decide (r = resource_of req)) as [->|Hr].
    + rewrite coll_set_coll. apply Forall_app. split; [apply Hint|].
      apply Forall_singleton. apply stored_document_int_quantity.
    + rewrite coll_set_coll_ne by done. apply Hint.
  - intros r id username r'. unfold delete_record.
    destruct (ObjectId_of_str id) as [oid|e]; [|apply Hint].
    destruct (delete_one_cases
                (<["_id" := VOid oid]> {["user_id" := VStr username]})
                (coll r db))
      as [Hnone|(l1 & s & l2 & Hc & Hl1 & Hs)].
    + rewrite (delete_one_no_match _ _ Hnone). simpl. rewrite set_coll_coll.
      apply Hint.
    + rewrite Hc, (delete_one_first_match _ _ _ _ Hl1 Hs). simpl.
      destruct (decide (r' = r)) as [->|Hr].
      * rewrite coll_set_coll. specialize (Hint r). rewrite Hc in Hint.
        apply Forall_app in Hint as [H1 H2]. apply Forall_cons in H2 as [_ H2].
        by apply Forall_app.
      * rewrite coll_set_coll_ne by done. apply Hint.
Qed.

Lemma int_quantities_empty_db : int_quantities empty_db.
Proof. intros r. destruct r; constructor. Qed.

(** [int_quantities_preserved] from the empty store. *)
Lemma int_quantities_preserved_witness :
  int_quantities empty_db
  ∧ int_quantities (post example_post "alice" (example_id 9) empty_db).2
  ∧ int_quantities
      (delete_record DeadSeedlings "000000000000000000000009" "alice"
         empty_db).2.
Proof.
  split; [exact int_quantities_empty_db|].
  destruct (int_quantities_preserved empty_db int_quantities_empty_db)
    as [Hpost Hdelete].
  split; [apply Hpost|apply Hdelete].
Defined.

Lemma int_quantity_list (l : list document) :
  Forall (λ s, ∃ z, get_quantity s = VInt z) l →
  ∃ zs, get_quantity <$> l = VInt <$> zs.
Proof.
  induction 1 as [|s l [z Hz] _ [zs IH]]; [by exists []|].
  exists (z :: zs). rewrite !fmap_cons. by rewrite Hz, IH.
Qed.

Lemma int_quantities_read (u : string) (c : list document) :
  Forall (λ s, ∃ z, get_quantity s = VInt z) c →
  ∃ zs, get_quantity <$> take 1000 (owned_by u c) = VInt <$> zs.
Proof.
  intros Hc. apply int_quantity_list. apply Forall_forall. intros s Hs.
  rewrite Forall_forall in Hc. apply Hc.
  apply elem_of_take in Hs as (i & Hi & _).
  apply list_elem_of_lookup_2 in Hi. by apply owned_by_user_id in Hi as [_ ?].
Qed.

Lemma survival_rate_of_raises (n t : Z) (e : exn) :
  survival_rate_of n t = Raise e → e = OverflowError.
Proof.
  unfold survival_rate_of, int_truediv.
  destruct (Z.ltb_spec 0 t) as [Ht|_]; [|done].
  destruct (Z.eqb_spec t 0) as [?|_]; [lia|].
  destruct (SFdiv _ _ _ _); cbn [mbind result_bind]; by intros [= <-].
Qed.

(** X16: on a store in which every quantity is an int, the dashboard handler
    returns its dict of six statistics for every user; the only exception it
    can raise is OverflowError, when the quotient is too large for a float.
    It raises neither TypeError nor ZeroDivisionError. *)
Theorem dashboard_on_int_quantities (u : string) (db : DB) :
  int_quantities db →
  (∃ stats,
     get_dashboard_stats u db = Ok stats
     ∧ dom stats
       = list_to_set
           ["total_received"; "total_dead"; "total_discarded";
            "total_produced"; "survival_rate"; "total_in_nursery"])
  ∨ get_dashboard_stats u db = Raise OverflowError.
Proof.
  intros Hint.
  destruct (int_quantities_read u _ (Hint SeedlingsReceived)) as [rs Hr].
  destruct (int_quantities_read u _ (Hint DeadSeedlings)) as [ds Hd].
  destruct (int_quantities_read u _ (Hint DiscardedSeedlings)) as [xs Hx].
  destruct (int_quantities_read u _ (Hint NurseryProduced)) as [ps Hp].
  cbn [coll] in Hr, Hd, Hx, Hp.
  rewrite (get_dashboard_stats_quantities u db rs ds xs ps Hr Hd Hx Hp).
  destruct (survival_rate_of _ _) as [rate|e] eqn:Hrate;
    cbn [mbind result_bind].
  - unfold survival_rate_of in Hrate.
    assert (∃ rounded, py_round rate 2 = Ok rounded) as [rounded ->].
    { destruct (0 <? _)%Z.
      - destruct (int_truediv _ _); cbn [mbind result_bind] in Hrate; [|done].
        injection Hrate as <-. by eexists.
      - injection Hrate as <-. by eexists. }
    left. eexists. split; [reflexivity|].
    unfold stats_dict. rewrite dom_list_to_map_L. reflexivity.
  - right. by rewrite (survival_rate_of_raises _ _ _ Hrate).
Qed.

(** [dashboard_on_int_quantities] for alice on the example store. *)
Lemma dashboard_on_int_quantities_witness :
  int_quantities db_example
  ∧ ((∃ stats,
        get_dashboard_stats "alice" db_example = Ok stats
        ∧ dom stats
          = list_to_set
              ["total_received"; "total_dead"; "total_discarded";
               "total_produced"; "survival_rate"; "total_in_nursery"])
     ∨ get_dashboard_stats "alice" db_example = Raise OverflowError).
Proof.
  assert (int_quantities db_example) as Hint.
  { intros r. destruct r; repeat constructor; eexists; reflexivity. }
  split; [exact Hint|]. by apply dashboard_on_int_quantities.
Defined.

(** ** The rows of the export *)

Lemma written_rows_app (o1 o2 : list chunk) :
  written_rows (o1 ++ o2) = (written_rows o1 ++ written_rows o2)%list.
Proof. unfold written_rows. apply omap_app. Qed.

Lemma written_rows_section (fieldnames : list string) (items : list document) :
  written_rows (write_table fieldnames items) = section_rows fieldnames items.
Proof.
  destruct items as [|item items]; [reflexivity|].
  by rewrite written_rows_write_table.
Qed.

(** X17: the csv rows of the export are, section by section in the order
    Received, Delivery Notes, Dead, Discarded, Produced, the rows of the first
    1000 records of the user in that collection in store order: nothing for
    an empty section, otherwise the field names followed by one row per
    record; every row has one cell per field of its section (6, 4, 3, 3
    and 5 cells), so no row carries [_id], [user_id] or [created_at]. *)
Theorem export_rows_by_section (u : string) (db : DB) :
  written_rows (export_to_csv u db)
  = (section_rows
       ["date"; "type"; "supplier"; "price"; "lot_number"; "quantity"]
       (take 1000 (owned_by u (seedlings_received db)))
     ++ section_rows ["date"; "type"; "expected_quantity"; "actual_quantity"]
          (take 1000 (owned_by u (delivery_notes db)))
     ++ section_rows ["date"; "type"; "quantity"]
          (take 1000 (owned_by u (dead_seedlings db)))
     ++ section_rows ["date"; "type"; "quantity"]
          (take 1000 (owned_by u (discarded_seedlings db)))
     ++ section_rows
          ["date"; "type"; "quantity"; "parent_plant"; "propagation_method"]
          (take 1000 (owned_by u (nursery_produced db))))%list
  ∧ ∀ fieldnames items,
      Forall (λ row, length row = length fieldnames)
        (section_rows fieldnames items).
Proof.
  split.
  - unfold export_to_csv, to_list, owned_by.
    rewrite !written_rows_app, !written_rows_section. reflexivity.
  - intros fieldnames items. destruct items as [|item items]; [constructor|].
    unfold section_rows. constructor; [by rewrite length_fmap|].
    apply Forall_fmap, Forall_forall. intros s _.
    unfold compose, row_of. by rewrite !length_fmap.
Qed.
